(** * PMLL: a bounded key-value store with expiry on read

    Shallow embedding of [src/.logicloops/PMLL.py], the class
    [PersistentMemoryLogicLoop], and the properties its specification
    states about it.

    Modelling decisions, all of them visible in the definitions below:

    - Python values are the inductive type [pyval].  A [str] is the list of
      its code points, a [bytes] the list of its bytes, a [dict] an
      association list in insertion order with [str] keys (every dict the
      class builds or [json.load] returns has [str] keys).
    - A [float] is modelled by a whole number, [PNum z]: the clock counts
      whole units of time, and the difference of two floats is the exact
      one, which is what Python computes while it stays below 2^53 in
      magnitude.  An [int] is [PInt z]; where the class subtracts one from
      a float, Python first converts it to the nearest float and raises
      [OverflowError] when there is none.
    - An object of a class of the caller's is [PObject]: all the class can
      do with one is call its [encode] method, when it has one.
    - Every method is a function from the object's state to an outcome
      ([Return] or [Raise]) and the state the call leaves behind, so that
      a mutation made before an exception stays visible.
    - [time.time()] is the argument [now] of the two methods that read the
      clock.
    - A path of the file system names one of the things [open] tells
      apart: nothing, a file the process may read and write, a file it
      may not open, or something [open] fails on in another way, such as
      a directory or a path through a file.
    - [hashlib.sha256], the order [sorted] gives to keys that are not
      numbers and the interpreter's limit on the digits of an [int] it
      prints are parameters of the development. *)

From Stdlib Require Import ZArith NArith List Bool Lia.
From Stdlib Require Import Strings.String Strings.Ascii Strings.Byte.
From Stdlib Require Import Sorting.Sorted Sorting.Permutation.
Import ListNotations.

Local Open Scope Z_scope.
Set Warnings "-register-all".

(* ================================================================== *)
(** ** Python values *)

(** A [str]: its code points. *)
Definition pystr := list N.

(** A string literal of the source. *)
Definition str (s : string) : pystr :=
  List.map N_of_ascii (list_ascii_of_string s).

(** The exceptions the class can let escape. *)
Inductive exn : Type :=
| AttributeError
| UnicodeEncodeError
| TypeError
| KeyError
| IndexError
| FileNotFoundError
| PermissionError
| JSONDecodeError
| OverflowError
| ValueError
| IsADirectoryError
| NotADirectoryError.

Inductive result (A : Type) : Type :=
| Return (a : A)
| Raise (e : exn).

Arguments Return {A} a.
Arguments Raise {A} e.

(** Python values.  [PNum] is a [float], [PInt] an [int].  [PObject] is
    an instance of a class of the caller's with no special method:
    [encode] is [None] when it has no [encode] method, and otherwise
    what calling the method gives. *)
Inductive pyval : Type :=
| PNone
| PBool (b : bool)
| PNum (z : Z)
| PInt (z : Z)
| PStr (s : pystr)
| PBytes (b : list byte)
| PList (l : list pyval)
| PTuple (l : list pyval)
| PDict (d : list (pystr * pyval))
| PObject (encode : option (result pyval)).

Definition returns {A : Type} (r : result A) : Prop :=
  exists a, r = Return a.

Definition raises {A : Type} (r : result A) : Prop :=
  exists e, r = Raise e.

(** Induction over [pyval] that reaches inside lists, tuples and dicts. *)
Section PyvalInd.
Variable P : pyval -> Prop.
Hypothesis HNone : P PNone.
Hypothesis HBool : forall b, P (PBool b).
Hypothesis HNum : forall z, P (PNum z).
Hypothesis HInt : forall z, P (PInt z).
Hypothesis HStr : forall s, P (PStr s).
Hypothesis HBytes : forall b, P (PBytes b).
Hypothesis HList : forall l, Forall P l -> P (PList l).
Hypothesis HTuple : forall l, Forall P l -> P (PTuple l).
Hypothesis HDict : forall d, Forall (fun kv => P (snd kv)) d -> P (PDict d).
Hypothesis HObject :
  forall o,
    match o with Some (Return v) => P v | _ => True end -> P (PObject o).

End PyvalInd.

(* ================================================================== *)
(** ** Strings and dicts *)

Fixpoint pystr_eqb (a b : pystr) : bool :=
  match a, b with
  | [], [] => true
  | x :: a', y :: b' => N.eqb x y && pystr_eqb a' b'
  | _, _ => false
  end.

Fixpoint is_prefix (a b : pystr) : bool :=
  match a, b with
  | [], _ => true
  | x :: a', y :: b' => N.eqb x y && is_prefix a' b'
  | _ :: _, [] => false
  end.

(** [a in b] for two [str]: [a] occurs in [b] as a substring. *)
Fixpoint is_substring (a b : pystr) : bool :=
  is_prefix a b ||
  match b with
  | [] => false
  | _ :: b' => is_substring a b'
  end.

Definition dict := list (pystr * pyval).

Fixpoint dict_get (k : pystr) (d : dict) : option pyval :=
  match d with
  | [] => None
  | (k', v) :: r => if pystr_eqb k k' then Some v else dict_get k r
  end.

(** [d[k] = v]: an existing key keeps its place, a new key goes last. *)
Fixpoint dict_set (k : pystr) (v : pyval) (d : dict) : dict :=
  match d with
  | [] => [(k, v)]
  | (k', v') :: r =>
      if pystr_eqb k k' then (k', v) :: r else (k', v') :: dict_set k v r
  end.

(** [del d[k]] on a dict that holds [k]. *)
Fixpoint dict_del (k : pystr) (d : dict) : dict :=
  match d with
  | [] => []
  | (k', v') :: r =>
      if pystr_eqb k k' then r else (k', v') :: dict_del k r
  end.

Definition dict_mem (k : pystr) (d : dict) : bool :=
  match dict_get k d with Some _ => true | None => false end.

Definition dict_len (d : dict) : Z := Z.of_nat (List.length d).

(** Keys of a Python dict are pairwise distinct. *)
Definition dict_ok (d : dict) : Prop := NoDup (List.map fst d).

(* ================================================================== *)
(** ** The operators of Python the class applies to values it does not
       control *)

(** [c[k] = v] for a [str] key. *)
Definition py_setitem (c : pyval) (k : pystr) (v : pyval) : result pyval :=
  match c with
  | PDict d => Return (PDict (dict_set k v d))
  | _ => Raise TypeError
  end.

(** [c[k]] for a [str] key. *)
Definition py_getitem (c : pyval) (k : pystr) : result pyval :=
  match c with
  | PDict d =>
      match dict_get k d with
      | Some v => Return v
      | None => Raise KeyError
      end
  | _ => Raise TypeError
  end.

(** [del c[k]] for a [str] key. *)
Definition py_delitem (c : pyval) (k : pystr) : result pyval :=
  match c with
  | PDict d =>
      if dict_mem k d then Return (PDict (dict_del k d)) else Raise KeyError
  | _ => Raise TypeError
  end.

Definition is_this_str (k : pystr) (v : pyval) : bool :=
  match v with
  | PStr s => pystr_eqb k s
  | _ => false
  end.

(** [k in c] for a [str] [k]. *)
Definition py_contains (k : pystr) (c : pyval) : result bool :=
  match c with
  | PDict d => Return (dict_mem k d)
  | PList l | PTuple l => Return (existsb (is_this_str k) l)
  | PStr s => Return (is_substring k s)
  | _ => Raise TypeError
  end.

(** [len(c)]. *)
Definition py_len (c : pyval) : result Z :=
  match c with
  | PDict d => Return (dict_len d)
  | PList l | PTuple l => Return (Z.of_nat (List.length l))
  | PStr s => Return (Z.of_nat (List.length s))
  | PBytes b => Return (Z.of_nat (List.length b))
  | _ => Raise TypeError
  end.

(** [c.items()]. *)
Definition py_items (c : pyval) : result (list (pystr * pyval)) :=
  match c with
  | PDict d => Return d
  | _ => Raise AttributeError
  end.

(** A value that takes part in [<] and [<=] as a number, with the number
    it is: Python compares an [int], a [float] and a [bool] by their exact
    values; [True] is 1 and [False] is 0. *)
Definition as_number (v : pyval) : option Z :=
  match v with
  | PNum z => Some z
  | PInt z => Some z
  | PBool true => Some 1
  | PBool false => Some 0
  | _ => None
  end.

(** The whole number nearest to [z] that a float can hold: [z] itself
    below 2^53, and otherwise [z] rounded to 53 significant bits, a tie
    going to the even one. *)
Definition round53 (z : Z) : Z :=
  let a := Z.abs z in
  let n := Z.log2 a in
  if n <? 53 then z
  else
    let shift := n - 52 in
    let q := Z.shiftr a shift in
    let r := Z.land a (Z.ones shift) in
    let half := Z.shiftl 1 (shift - 1) in
    let q' := if (half <? r) || ((r =? half) && Z.odd q) then q + 1 else q in
    Z.sgn z * Z.shiftl q' shift.

(** Floats stop below 2^1024. *)
Definition float_limit : Z := 2 ^ 1024.

(** [float(z)] for an [int]: [OverflowError] when the nearest float
    would be past the largest one. *)
Definition float_of_int (z : Z) : result Z :=
  let f := round53 z in
  if float_limit <=? Z.abs f then Raise OverflowError else Return f.

(** The float a value is taken for when it is subtracted from one. *)
Definition to_float (v : pyval) : result Z :=
  match v with
  | PNum z => Return z
  | PInt z => float_of_int z
  | PBool true => Return 1
  | PBool false => Return 0
  | _ => Raise TypeError
  end.

(** [t - v] for a float [t]: [v] is taken for a float, and the
    difference is the exact one, which is the float Python gives while
    it stays below 2^53 in magnitude. *)
Definition py_sub (t : Z) (v : pyval) : result Z :=
  match to_float v with
  | Return z => Return (t - z)
  | Raise e => Raise e
  end.

(* ================================================================== *)
(** ** [str.encode()]: UTF-8, strict *)

Definition byte_of (n : N) : byte :=
  match Byte.of_N n with
  | Some b => b
  | None => x00
  end.

Definition is_surrogate (c : N) : bool :=
  (N.leb 55296 c && N.leb c 57343)%N.

Definition utf8_char (c : N) : list byte :=
  if N.ltb c 128 then [byte_of c]
  else if N.ltb c 2048 then
    [byte_of (192 + N.shiftr c 6); byte_of (128 + N.land c 63)]
  else if N.ltb c 65536 then
    [byte_of (224 + N.shiftr c 12);
     byte_of (128 + N.land (N.shiftr c 6) 63);
     byte_of (128 + N.land c 63)]
  else
    [byte_of (240 + N.land (N.shiftr c 18) 7);
     byte_of (128 + N.land (N.shiftr c 12) 63);
     byte_of (128 + N.land (N.shiftr c 6) 63);
     byte_of (128 + N.land c 63)].

Fixpoint str_encode (s : pystr) : result (list byte) :=
  match s with
  | [] => Return []
  | c :: r =>
      if is_surrogate c then Raise UnicodeEncodeError
      else match str_encode r with
           | Return bs => Return (utf8_char c ++ bs)
           | Raise e => Raise e
           end
  end.

(** [key.encode()]: a [str] has the method, an object has it or not,
    and nothing else has it. *)
Definition py_encode (key : pyval) : result pyval :=
  match key with
  | PStr s =>
      match str_encode s with
      | Return b => Return (PBytes b)
      | Raise e => Raise e
      end
  | PObject (Some encoded) => encoded
  | _ => Raise AttributeError
  end.

(** Whether [key.encode] is there to be called. *)
Definition has_encode (key : pyval) : bool :=
  match key with
  | PStr _ | PObject (Some _) => true
  | _ => false
  end.

Definition encodable (s : pystr) : Prop :=
  Forall (fun c => is_surrogate c = false) s.

(* ================================================================== *)
(** ** [json.dump], [json.load] and the files they use *)

Definition is_high_surrogate (c : N) : bool :=
  (N.leb 55296 c && N.leb c 56319)%N.

Definition is_low_surrogate (c : N) : bool :=
  (N.leb 56320 c && N.leb c 57343)%N.

(** A [str] after [json.dump] and [json.load]: the text holds every
    code point of a string as an escape, and the decoder takes a high
    surrogate followed by a low one for the two halves of one code
    point. *)
Fixpoint merge_surrogates (s : pystr) : pystr :=
  match s with
  | [] => []
  | c :: s' =>
      match s' with
      | c' :: s'' =>
          if is_high_surrogate c && is_low_surrogate c'
          then (65536 + (c - 55296) * 1024 + (c' - 56320))%N
               :: merge_surrogates s''
          else c :: merge_surrogates s'
      | [] => [c]
      end
  end.


(** The dict [json.load] builds from the pairs of an object, in order:
    a key that comes again keeps its place and takes the later value. *)
Definition dict_of_pairs (pairs : list (pystr * pyval)) : dict :=
  fold_left (fun d kv => dict_set (fst kv) (snd kv) d) pairs [].


(** What a file holds: text that is not JSON, or a JSON document, given
    by the value [json.load] builds from it. *)
Inductive content : Type :=
| Garbage
| Json (doc : pyval).

(** What a path names, as far as [open] tells: nothing, in a directory
    that is there ([Missing]); a file the process may not open
    ([Denied]); a file it may read and write, as the files are that it
    makes itself ([Data]); or something [open] raises [e] for whatever
    the mode ([Blocked e]): [FileNotFoundError] when the directory is
    not there, [NotADirectoryError] when the path goes through a
    file, [IsADirectoryError] when it names a directory. *)
Inductive file : Type :=
| Missing
| Denied
| Data (c : content)
| Blocked (e : exn).

Definition filesystem := pystr -> file.


(** [open(filename, "r")]: the text, or the exception. *)
Definition open_for_reading (f : file) : result content :=
  match f with
  | Missing => Raise FileNotFoundError
  | Denied => Raise PermissionError
  | Data c => Return c
  | Blocked e => Raise e
  end.


(** [json.load(file)]. *)
Definition json_load (c : content) : result pyval :=
  match c with
  | Garbage => Raise JSONDecodeError
  | Json doc => Return doc
  end.

(** [with open(filename, "r") as file: json.load(file)]. *)
Definition open_and_load (f : file) : result pyval :=
  match open_for_reading f with
  | Raise e => Raise e
  | Return c => json_load c
  end.

(* ================================================================== *)
(** ** The object and the monad of its methods *)

Record pmll : Type := {
  memory : pyval;
  memory_timeout : Z;
  max_memory_size : Z
}.

(** [PersistentMemoryLogicLoop(memory_timeout, max_memory_size)]. *)
Definition __init__ (memory_timeout max_memory_size : Z) : pmll :=
  {| memory := PDict [];
     memory_timeout := memory_timeout;
     max_memory_size := max_memory_size |}.

Definition default_pmll : pmll := __init__ 300 1024.

Definition with_memory (m : pyval) (self : pmll) : pmll :=
  {| memory := m;
     memory_timeout := memory_timeout self;
     max_memory_size := max_memory_size self |}.

(** A method body: it reads and writes [self] and returns or raises. *)
Definition M (A : Type) : Type := pmll -> result A * pmll.

Definition ret {A : Type} (a : A) : M A := fun self => (Return a, self).

Definition throw {A : Type} (e : exn) : M A := fun self => (Raise e, self).

Definition lift {A : Type} (r : result A) : M A := fun self => (r, self).

Definition bind {A B : Type} (m : M A) (k : A -> M B) : M B :=
  fun self =>
    match m self with
    | (Return a, self') => k a self'
    | (Raise e, self') => (Raise e, self')
    end.

Definition get_field {A : Type} (f : pmll -> A) : M A :=
  fun self => (Return (f self), self).

Definition set_memory (m : pyval) : M unit :=
  fun self => (Return tt, with_memory m self).

Declare Scope pmll_scope.
Delimit Scope pmll_scope with pmll.

Notation "x <- m ;; k" := (bind m (fun x => k))
  (at level 61, m at next level, right associativity) : pmll_scope.
Notation "m ;; k" := (bind m (fun _ => k))
  (at level 61, right associativity) : pmll_scope.

Local Open Scope pmll_scope.

(* ================================================================== *)
(** ** [sorted(..., key=...)] *)

Definition item := (pystr * pyval)%type.

(** The key function of [_prune_memory]: [lambda x: x[1]["timestamp"]]. *)
Definition timestamp_key (x : item) : result pyval :=
  py_getitem (snd x) (str "timestamp").

(** [sorted] first applies the key function to every item, in order. *)
Fixpoint decorate (items : list item) : result (list (pyval * item)) :=
  match items with
  | [] => Return []
  | x :: r =>
      match timestamp_key x with
      | Raise e => Raise e
      | Return k =>
          match decorate r with
          | Raise e => Raise e
          | Return r' => Return ((k, x) :: r')
          end
      end
  end.

Fixpoint numeric_keys (l : list (pyval * item)) : option (list (Z * item)) :=
  match l with
  | [] => Some []
  | (k, x) :: r =>
      match as_number k, numeric_keys r with
      | Some z, Some r' => Some ((z, x) :: r')
      | _, _ => None
      end
  end.

(** [sorted] is stable: of two items with equal keys the one that came
    first stays first.  Insertion from the right, before the first item
    whose key is not smaller, gives that order. *)
Fixpoint insert_sorted (x : Z * item) (l : list (Z * item))
  : list (Z * item) :=
  match l with
  | [] => [x]
  | y :: r =>
      if fst x <=? fst y then x :: y :: r else y :: insert_sorted x r
  end.

Fixpoint stable_sort (l : list (Z * item)) : list (Z * item) :=
  match l with
  | [] => []
  | x :: r => insert_sorted x (stable_sort r)
  end.

(* ================================================================== *)
(** ** What [add_to_memory] writes *)

(** The dict [add_to_memory] stores under the hashed key. *)
Definition new_entry (current_time : Z) (value : pyval) : pyval :=
  PDict [(str "timestamp", PNum current_time); (str "data", value)].

(* ================================================================== *)
(** ** Stand-ins for the two parameters, to run the methods

    [byte_digest] spells the bytes it is given as code points: it is
    injective, which is all the examples below ask of a digest.
    [no_other_order] refuses keys that are not numbers. *)

Definition byte_digest (b : list byte) : pystr := List.map Byte.to_N b.

Definition no_other_order (ks : list (pyval * (pystr * pyval)))
  : result (list (pystr * pyval)) := Raise TypeError.

(* ================================================================== *)
(** ** Keys, stores and files to run the methods on *)

(** The key and the value of the example at the end of the source. *)
Definition user_123 : pyval := PStr (str "user_123").

Definition hello : pyval :=
  PDict [(str "conversation", PStr (str "Hello, how are you?"))].

(** The store of that example after its [add_to_memory], made at time 0;
    under [byte_digest] the digest of ["user_123"] spells the key. *)
Definition example_store : pmll :=
  {| memory := PDict [(str "user_123", new_entry 0 hello)];
     memory_timeout := 600;
     max_memory_size := 500 |}.

(** A full store of capacity 1. *)
Definition full_store : pmll :=
  {| memory := PDict [(str "old", new_entry 5 PNone)];
     memory_timeout := 300;
     max_memory_size := 1 |}.

(** A full store of capacity 1 whose entry is stamped later than the
    puts made below. *)
Definition future_store : pmll :=
  {| memory := PDict [(str "old", new_entry 50 PNone)];
     memory_timeout := 300;
     max_memory_size := 1 |}.

(** A store that holds more than its capacity, as [load_memory] can
    leave it, with two entries of the same age. *)
Definition crowded_store : pmll :=
  {| memory := PDict [(str "user_123", new_entry 10 PNone);
                      (str "old", new_entry 10 PNone)];
     memory_timeout := 300;
     max_memory_size := 1 |}.

(** The string of the single code point U+D800, a surrogate. *)
Definition lone_surrogate : pyval := PStr [55296%N].

(** Three puts at times 1, 2 and 3. *)
Definition three_calls : list (Z * pyval * pyval) :=
  [(1, PStr (str "a"), PNum 10);
   (2, PStr (str "b"), PNum 20);
   (3, PStr (str "c"), PNum 30)].

Definition no_files : filesystem := fun _ => Missing.

Definition garbage_files : filesystem := fun _ => Data Garbage.

(** A JSON document that maps the digest of ["user_123"] to an object
    without fields. *)
Definition bare_document : pyval := PDict [(str "user_123", PDict [])].

Definition bare_files : filesystem := fun _ => Data (Json bare_document).

(* ================================================================== *)
(** ** The methods of [PersistentMemoryLogicLoop] *)

Section Methods.

(** [sha256(b).hexdigest()], from [hashlib]. *)
Variable sha256_hexdigest : list byte -> pystr.

(** The list [sorted] returns, or the exception it raises, when two or
    more keys are to be compared and one of them is not a number: that
    is decided by Python's ordering of strings, lists and the rest. *)
Variable sorted_other_keys : list (pyval * item) -> result (list item).

(** [sys.get_int_max_str_digits()]: the most decimal digits of an [int]
    the interpreter prints, 0 for no limit. *)
Variable int_max_str_digits : Z.

Definition sorted_by_timestamp (items : list item) : result (list item) :=
  match decorate items with
  | Raise e => Raise e
  | Return ks =>
      match numeric_keys ks with
      | Some zs => Return (List.map snd (stable_sort zs))
      | None =>
          match ks with
          | [] | [_] => Return items
          | _ => sorted_other_keys ks
          end
      end
  end.

(** [sha256] takes bytes and nothing else of what the model has. *)
Definition _hash_key (key : pyval) : result pystr :=
  match py_encode key with
  | Raise e => Raise e
  | Return (PBytes b) => Return (sha256_hexdigest b)
  | Return _ => Raise TypeError
  end.

(** The [while] loop of [_prune_memory]; every turn pops the head of
    [sorted_memory], so the list is what the loop descends on. *)
Fixpoint prune_loop (sorted_memory : list item) : M unit :=
  m <- get_field memory ;;
  n <- lift (py_len m) ;;
  size <- get_field max_memory_size ;;
  if n >? size then
    match sorted_memory with
    | [] => throw IndexError
    | (oldest_key, _) :: sorted_memory' =>
        m' <- lift (py_delitem m oldest_key) ;;
        set_memory m' ;;
        prune_loop sorted_memory'
    end
  else ret tt.

Definition _prune_memory : M unit :=
  m <- get_field memory ;;
  items <- lift (py_items m) ;;
  sorted_memory <- lift (sorted_by_timestamp items) ;;
  prune_loop sorted_memory.

Definition add_to_memory (now : Z) (key value : pyval) : M unit :=
  let current_time := now in
  hashed_key <- lift (_hash_key key) ;;
  m <- get_field memory ;;
  m' <- lift (py_setitem m hashed_key (new_entry current_time value)) ;;
  set_memory m' ;;
  n <- lift (py_len m') ;;
  size <- get_field max_memory_size ;;
  if n >? size then _prune_memory else ret tt.

Definition get_from_memory (now : Z) (key : pyval) : M pyval :=
  hashed_key <- lift (_hash_key key) ;;
  let current_time := now in
  m <- get_field memory ;;
  present <- lift (py_contains hashed_key m) ;;
  if present then
    entry <- lift (py_getitem m hashed_key) ;;
    timestamp <- lift (py_getitem entry (str "timestamp")) ;;
    age <- lift (py_sub current_time timestamp) ;;
    timeout <- get_field memory_timeout ;;
    if age <=? timeout then
      lift (py_getitem entry (str "data"))
    else
      m' <- lift (py_delitem m hashed_key) ;;
      set_memory m' ;;
      ret PNone
  else ret PNone.

Definition default_filename : pystr := str "persistent_memory.json".

(** An [int] the interpreter refuses to print. *)
Definition int_refused (z : Z) : bool :=
  (0 <? int_max_str_digits) && (10 ^ int_max_str_digits <=? Z.abs z).

(** The value [json.load] gives back for what [json.dump] wrote.  A
    tuple is written as an array and comes back as a list; a string
    comes back with its surrogate pairs made one code point each, the
    keys of a dict too, so that two keys can come back as one; an [int]
    of too many digits is refused with [ValueError], a [bytes] and an
    object with [TypeError]. *)
Fixpoint jsonify (v : pyval) : result pyval :=
  match v with
  | PNone | PBool _ | PNum _ => Return v
  | PInt z => if int_refused z then Raise ValueError else Return v
  | PStr s => Return (PStr (merge_surrogates s))
  | PBytes _ | PObject _ => Raise TypeError
  | PList l | PTuple l =>
      match (fix each (l : list pyval) : result (list pyval) :=
               match l with
               | [] => Return []
               | x :: r =>
                   match jsonify x with
                   | Raise e => Raise e
                   | Return x' =>
                       match each r with
                       | Raise e => Raise e
                       | Return r' => Return (x' :: r')
                       end
                   end
               end) l with
      | Raise e => Raise e
      | Return l' => Return (PList l')
      end
  | PDict d =>
      match (fix each (d : list (pystr * pyval))
               : result (list (pystr * pyval)) :=
               match d with
               | [] => Return []
               | (k, x) :: r =>
                   match jsonify x with
                   | Raise e => Raise e
                   | Return x' =>
                       match each r with
                       | Raise e => Raise e
                       | Return r' =>
                           Return ((merge_surrogates k, x') :: r')
                       end
                   end
               end) d with
      | Raise e => Raise e
      | Return pairs => Return (PDict (dict_of_pairs pairs))
      end
  end.


Definition load_memory (filename : pystr) (fs : filesystem) : M unit :=
  fun self =>
    match open_and_load (fs filename) with
    | Return doc => set_memory doc self
    | Raise FileNotFoundError => set_memory (PDict []) self
    | Raise e => (Raise e, self)
    end.

(** A run of [add_to_memory] calls, each with the time it is made at;
    the run stops at the first call that raises. *)
Fixpoint add_all (calls : list (Z * pyval * pyval)) : M unit :=
  match calls with
  | [] => ret tt
  | (now, key, value) :: calls' =>
      add_to_memory now key value ;; add_all calls'
  end.


(* ---------------------------------------------------------------- *)
(** *** What the properties speak of *)

(** The timestamp of an entry, when it has one that is a number. *)
Definition timestamp_of (e : pyval) : option Z :=
  match e with
  | PDict f =>
      match dict_get (str "timestamp") f with
      | Some t => as_number t
      | None => None
      end
  | _ => None
  end.

Definition data_of (e : pyval) : option pyval :=
  match e with
  | PDict f => dict_get (str "data") f
  | _ => None
  end.

(** An entry without a ["timestamp"] field: not a dict, or a dict
    without that key. *)
Definition lacks_timestamp (e : pyval) : bool :=
  match e with
  | PDict f => negb (dict_mem (str "timestamp") f)
  | _ => true
  end.

Definition has_timestamp (kv : item) : Prop :=
  exists ts, timestamp_of (snd kv) = Some ts.

(** Every entry carries a timestamp that is a number. *)
Definition timestamps_ok (d : dict) : Prop := Forall has_timestamp d.

(** No entry is younger than [now]. *)
Definition not_after (now : Z) (d : dict) : Prop :=
  Forall (fun kv => forall ts, timestamp_of (snd kv) = Some ts -> ts <= now) d.

(** An entry of the shape [add_to_memory] writes: a dict with a
    numeric ["timestamp"] and a ["data"] field. *)
Definition entry_ok (kv : item) : Prop :=
  has_timestamp kv /\ exists v, data_of (snd kv) = Some v.

Definition entries_ok (d : dict) : Prop := Forall entry_ok d.

(** The store holds a mapping from digests to entries of that shape. *)
Inductive store_ok (self : pmll) : Prop :=
| store_ok_intro (d : dict) :
    memory self = PDict d -> dict_ok d -> entries_ok d -> store_ok self.

(** A call of [add_to_memory] whose key is a [str] that UTF-8 can
    encode. *)
Definition str_key (call : Z * pyval * pyval) : Prop :=
  exists s, snd (fst call) = PStr s /\ encodable s.

(** The number of entries, for a store that holds a mapping. *)
Definition entries (self : pmll) : Z :=
  match memory self with
  | PDict d => dict_len d
  | _ => 0
  end.

(** The entry stored under a digest. *)
Definition lookup (h : pystr) (self : pmll) : option pyval :=
  match memory self with
  | PDict d => dict_get h d
  | _ => None
  end.

(** The timestamp [sorted] orders an item by; 0 stands for none. *)
Definition stamp (kv : item) : Z :=
  match timestamp_of (snd kv) with
  | Some ts => ts
  | None => 0
  end.

(** Deleting the keys of [victims], head first. *)
Definition delete_all (victims : list item) (d : dict) : dict :=
  fold_left (fun m kv => dict_del (fst kv) m) victims d.

(** The order [sorted] puts the keys in. *)
Definition by_key (a b : Z * item) : Prop := fst a <= fst b.

(** The keys [sorted] computes for a dict of timestamped entries. *)
Definition by_stamp (d : dict) : list (Z * item) :=
  List.map (fun kv => (stamp kv, kv)) d.

(** The items of a dict of timestamped entries as [sorted] returns
    them, and the ones a prune to [size] entries deletes. *)
Definition oldest_first (d : dict) : list item :=
  List.map snd (stable_sort (by_stamp d)).

Definition evicted (size : Z) (d : dict) : list item :=
  firstn (Z.to_nat (dict_len d - size)) (oldest_first d).

(** A method leaves [memory_timeout] and [max_memory_size] alone. *)
Definition same_config (self self' : pmll) : Prop :=
  max_memory_size self' = max_memory_size self /\
  memory_timeout self' = memory_timeout self.

(* ---------------------------------------------------------------- *)
(** *** Runs of calls, and the script at the end of the source *)

(** One call of a method that reads the clock, with the time read. *)
Inductive op : Type :=
| AddToMemory (now : Z) (key value : pyval)
| GetFromMemory (now : Z) (key : pyval).

Definition op_time (o : op) : Z :=
  match o with
  | AddToMemory now _ _ => now
  | GetFromMemory now _ => now
  end.

Definition op_key (o : op) : pyval :=
  match o with
  | AddToMemory _ key _ => key
  | GetFromMemory _ key => key
  end.

(** The calls made one after the other; the run stops at the first one
    that raises. *)
Fixpoint run (ops : list op) : M unit :=
  match ops with
  | [] => ret tt
  | AddToMemory now key value :: ops' =>
      add_to_memory now key value ;; run ops'
  | GetFromMemory now key :: ops' =>
      get_from_memory now key ;; run ops'
  end.

(** The clock does not go back: from [t] on, every call reads a time
    that is not before the one read by the call before it. *)
Fixpoint steady (t : Z) (ops : list op) : Prop :=
  match ops with
  | [] => True
  | o :: ops' => t <= op_time o /\ steady (op_time o) ops'
  end.

(** The time the last call of a run read, [t] for no call. *)
Fixpoint last_time (t : Z) (ops : list op) : Z :=
  match ops with
  | [] => t
  | o :: ops' => last_time (op_time o) ops'
  end.

(** A call whose key is a [str] that UTF-8 can encode. *)
Definition str_op (o : op) : Prop :=
  exists s, op_key o = PStr s /\ encodable s.

(** What a run keeps true of the store: a mapping with distinct keys
    and at most [max_memory_size] entries, each of the shape
    [add_to_memory] writes and none stamped after [t]. *)
Inductive store_sound (t : Z) (self : pmll) : Prop :=
| store_sound_intro (d : dict) :
    memory self = PDict d ->
    dict_ok d ->
    entries_ok d ->
    not_after t d ->
    dict_len d <= max_memory_size self ->
    store_sound t self.

(** The items stamped [ts]. *)
Definition stamped (ts : Z) (kv : item) : bool := stamp kv =? ts.





(** The timestamp of every entry that has one can be subtracted from a
    float: it is a float, a [bool], or an [int] that converts. *)
Definition subtractable (d : dict) : Prop :=
  Forall (fun kv =>
            forall t, py_getitem (snd kv) (str "timestamp") = Return t ->
                      returns (to_float t)) d.

(** [x] comes before [y] in a list. *)
Definition before {A : Type} (x y : A) (l : list A) : Prop :=
  exists l1 l2 l3, l = l1 ++ x :: l2 ++ y :: l3.


(** A run of puts and gets on a steady clock. *)
Definition example_run : list op :=
  [AddToMemory 1 (PStr (str "a")) (PNum 10);
   GetFromMemory 2 (PStr (str "a"));
   AddToMemory 2 (PStr (str "b")) (PNum 20);
   AddToMemory 5 (PStr (str "c")) (PNum 30);
   GetFromMemory 400 (PStr (str "b"))].



(** A full store of capacity 1 whose entry has no fields. *)
Definition bare_store : pmll := with_memory bare_document full_store.


(** A store whose entry is stamped with an [int] no float comes near. *)
Definition huge_stamp_store : pmll :=
  {| memory := PDict [(str "user_123",
                       PDict [(str "timestamp", PInt (10 ^ 400));
                              (str "data", PNone)])];
     memory_timeout := 600;
     max_memory_size := 500 |}.

(** A key that is no [str] and has an [encode] that returns the bytes
    of ["user_123"]. *)
Definition encoding_object : pyval :=
  PObject (Some (py_encode user_123)).

(** Files where ["notes.txt"] is a regular file, so that no path goes
    through it, and files where every path names a directory. *)
Definition under_a_file : filesystem :=
  fun path =>
    if pystr_eqb path (str "notes.txt") then Data Garbage
    else if is_prefix (str "notes.txt/") path then Blocked NotADirectoryError
    else Missing.

Definition directories : filesystem := fun _ => Blocked IsADirectoryError.

(** Files that hold the two entries of [crowded_store], and files that
    hold an empty JSON array. *)
Definition crowded_files : filesystem :=
  fun _ => Data (Json (memory crowded_store)).

Definition array_files : filesystem := fun _ => Data (Json (PList [])).

(* ---------------------------------------------------------------- *)
(** *** Strings and dicts *)

Lemma pystr_eqb_spec (a b : pystr) : reflect (a = b) (pystr_eqb a b).
Proof.
  revert b; induction a as [|x a IH]; intros [|y b]; simpl;
    try (constructor; congruence).
  destruct (N.eqb_spec x y) as [->|Hxy]; simpl.
  - destruct (IH b) as [->|Hab]; constructor; congruence.
  - constructor; congruence.
Qed.

Lemma pystr_eqb_refl (a : pystr) : pystr_eqb a a = true.
Proof. destruct (pystr_eqb_spec a a); congruence. Qed.

Lemma pystr_eqb_neq (a b : pystr) : a <> b -> pystr_eqb a b = false.
Proof. destruct (pystr_eqb_spec a b); congruence. Qed.

Lemma dict_mem_In (k : pystr) (d : dict) :
  dict_mem k d = true <-> In k (List.map fst d).
Proof.
  unfold dict_mem; induction d as [|[k' v] d IH]; simpl.
  - split; [discriminate | tauto].
  - destruct (pystr_eqb_spec k k') as [->|Hk].
    + split; auto.
    + rewrite IH; split; [auto | intros [E|H]; congruence].
Qed.

Lemma dict_get_In (k : pystr) (v : pyval) (d : dict) :
  dict_get k d = Some v -> In (k, v) d.
Proof.
  induction d as [|[k' v'] d IH]; simpl; [discriminate|].
  destruct (pystr_eqb_spec k k') as [->|Hk].
  - intros [= ->]; auto.
  - auto.
Qed.

Lemma dict_get_None (k : pystr) (d : dict) :
  dict_get k d = None <-> ~ In k (List.map fst d).
Proof.
  rewrite <- dict_mem_In; unfold dict_mem.
  destruct (dict_get k d); split; congruence.
Qed.

Lemma In_dict_get (k : pystr) (v : pyval) (d : dict) :
  dict_ok d -> In (k, v) d -> dict_get k d = Some v.
Proof.
  unfold dict_ok; induction d as [|[k' v'] d IH]; simpl; [tauto|].
  intros Hnd [E|Hin]; inversion Hnd as [|? ? Hk' Hd]; subst.
  - inversion E; subst; now rewrite pystr_eqb_refl.
  - destruct (pystr_eqb_spec k k') as [->|Hk]; auto.
    exfalso; apply Hk'. apply in_map_iff; exists (k', v); auto.
Qed.

Lemma dict_get_set_same (k : pystr) (v : pyval) (d : dict) :
  dict_get k (dict_set k v d) = Some v.
Proof.
  induction d as [|[k' v'] d IH]; simpl.
  - now rewrite pystr_eqb_refl.
  - destruct (pystr_eqb_spec k k') as [->|Hk]; simpl.
    + now rewrite pystr_eqb_refl.
    + now rewrite (pystr_eqb_neq _ _ Hk).
Qed.

Lemma dict_get_set_other (k k' : pystr) (v : pyval) (d : dict) :
  k' <> k -> dict_get k' (dict_set k v d) = dict_get k' d.
Proof.
  intros Hk; induction d as [|[k0 v0] d IH]; simpl.
  - now rewrite (pystr_eqb_neq _ _ Hk).
  - destruct (pystr_eqb_spec k k0) as [->|Hk0]; simpl.
    + now rewrite (pystr_eqb_neq _ _ Hk).
    + now rewrite IH.
Qed.

(** Writing a key that is there keeps the keys; a new key goes last. *)
Lemma dict_set_present (k : pystr) (v : pyval) (d : dict) :
  dict_mem k d = true ->
  List.map fst (dict_set k v d) = List.map fst d.
Proof.
  unfold dict_mem; induction d as [|[k' v'] d IH]; simpl; [discriminate|].
  destruct (pystr_eqb_spec k k') as [->|Hk]; simpl; auto.
  intros H; now rewrite IH.
Qed.

Lemma dict_set_absent (k : pystr) (v : pyval) (d : dict) :
  dict_mem k d = false -> dict_set k v d = d ++ [(k, v)].
Proof.
  unfold dict_mem; induction d as [|[k' v'] d IH]; simpl; auto.
  destruct (pystr_eqb_spec k k') as [->|Hk]; simpl; [discriminate|].
  intros H; now rewrite IH.
Qed.

Lemma dict_len_set (k : pystr) (v : pyval) (d : dict) :
  dict_len (dict_set k v d) =
  if dict_mem k d then dict_len d else dict_len d + 1.
Proof.
  unfold dict_len; destruct (dict_mem k d) eqn:Hm.
  - rewrite <- (length_map fst), dict_set_present, length_map; auto.
  - rewrite dict_set_absent, length_app by auto; simpl; lia.
Qed.

Lemma dict_ok_set (k : pystr) (v : pyval) (d : dict) :
  dict_ok d -> dict_ok (dict_set k v d).
Proof.
  unfold dict_ok; intros Hd; destruct (dict_mem k d) eqn:Hm.
  - now rewrite dict_set_present.
  - rewrite dict_set_absent, map_app by auto; simpl.
    apply NoDup_app; auto.
    + constructor; [simpl; tauto | constructor].
    + intros x Hx [<-|[]].
      apply dict_mem_In in Hx; congruence.
Qed.

Lemma dict_set_In (k : pystr) (v : pyval) (d : dict) (kv : item) :
  In kv (dict_set k v d) -> kv = (k, v) \/ In kv d.
Proof.
  induction d as [|[k' v'] d IH]; simpl.
  - intros [<-|[]]; auto.
  - destruct (pystr_eqb_spec k k') as [->|Hk]; simpl.
    + intros [<-|H]; auto.
    + intros [<-|H]; auto. destruct (IH H); auto.
Qed.

Lemma dict_del_In (k : pystr) (d : dict) (kv : item) :
  In kv (dict_del k d) -> In kv d.
Proof.
  induction d as [|[k' v'] d IH]; simpl; auto.
  destruct (pystr_eqb_spec k k'); simpl; intuition.
Qed.

Lemma dict_len_del (k : pystr) (d : dict) :
  dict_mem k d = true -> dict_len (dict_del k d) = dict_len d - 1.
Proof.
  unfold dict_mem, dict_len; induction d as [|[k' v'] d IH];
    cbn [dict_get dict_del]; [discriminate|].
  destruct (pystr_eqb_spec k k') as [->|Hk]; cbn [List.length]; [lia|].
  intros H; specialize (IH H); lia.
Qed.

Lemma dict_get_del_other (k k' : pystr) (d : dict) :
  k' <> k -> dict_get k' (dict_del k d) = dict_get k' d.
Proof.
  intros Hk; induction d as [|[k0 v0] d IH]; simpl; auto.
  destruct (pystr_eqb_spec k k0) as [->|Hk0]; simpl.
  - now rewrite (pystr_eqb_neq _ _ Hk).
  - now rewrite IH.
Qed.

Lemma dict_keys_del (k : pystr) (d : dict) :
  dict_mem k d = true ->
  Permutation (k :: List.map fst (dict_del k d)) (List.map fst d).
Proof.
  unfold dict_mem; induction d as [|[k' v'] d IH]; simpl; [discriminate|].
  destruct (pystr_eqb_spec k k') as [->|Hk]; simpl; auto.
  intros H; rewrite perm_swap; auto.
Qed.

Lemma dict_ok_del (k : pystr) (d : dict) :
  dict_ok d -> dict_ok (dict_del k d).
Proof.
  unfold dict_ok; induction d as [|[k' v'] d IH]; simpl; auto.
  intros Hnd; inversion Hnd as [|? ? Hk' Hd]; subst.
  destruct (pystr_eqb_spec k k') as [->|Hk]; simpl; auto.
  constructor; auto.
  intros Hin; apply Hk'.
  apply in_map_iff in Hin as [[k0 v0] [E Hin]]; simpl in E; subst.
  apply in_map_iff; exists (k', v0); split; auto.
  eapply dict_del_In; eauto.
Qed.

Lemma dict_get_del_same (k : pystr) (d : dict) :
  dict_ok d -> dict_get k (dict_del k d) = None.
Proof.
  unfold dict_ok; induction d as [|[k' v'] d IH]; simpl; auto.
  intros Hnd; inversion Hnd as [|? ? Hk' Hd]; subst.
  destruct (pystr_eqb_spec k k') as [->|Hk]; simpl.
  - now apply dict_get_None.
  - rewrite (pystr_eqb_neq _ _ Hk); auto.
Qed.

(* ---------------------------------------------------------------- *)
(** *** The stable sort *)

Lemma insert_sorted_perm (x : Z * item) (l : list (Z * item)) :
  Permutation (insert_sorted x l) (x :: l).
Proof.
  induction l as [|y l IH]; simpl; auto.
  destruct (fst x <=? fst y); auto.
  rewrite IH; apply perm_swap.
Qed.

Lemma stable_sort_perm (l : list (Z * item)) :
  Permutation (stable_sort l) l.
Proof.
  induction l as [|x l IH]; simpl; auto.
  rewrite insert_sorted_perm; auto.
Qed.

Lemma insert_sorted_sorted (x : Z * item) (l : list (Z * item)) :
  StronglySorted by_key l -> StronglySorted by_key (insert_sorted x l).
Proof.
  induction 1 as [|y l Hl IH Hy]; simpl.
  - repeat constructor.
  - destruct (Z.leb_spec (fst x) (fst y)) as [Hxy|Hxy].
    + constructor; [constructor; auto|].
      constructor; auto.
      eapply Forall_impl; [|exact Hy].
      unfold by_key; intros; lia.
    + constructor; auto.
      eapply Permutation_Forall;
        [symmetry; apply insert_sorted_perm|].
      constructor; auto. unfold by_key; lia.
Qed.

Lemma stable_sort_sorted (l : list (Z * item)) :
  StronglySorted by_key (stable_sort l).
Proof.
  induction l as [|x l IH]; simpl; [constructor|].
  now apply insert_sorted_sorted.
Qed.

(** An item that is last and whose key is not below any other stays
    last. *)
Lemma insert_sorted_before_max (a x : Z * item) (l : list (Z * item)) :
  fst a <= fst x ->
  insert_sorted a (l ++ [x]) = insert_sorted a l ++ [x].
Proof.
  intros Hax; induction l as [|y l IH]; simpl.
  - destruct (Z.leb_spec (fst a) (fst x)); [reflexivity | lia].
  - destruct (fst a <=? fst y); simpl; congruence.
Qed.

Lemma stable_sort_max_last (x : Z * item) (l : list (Z * item)) :
  Forall (fun a => fst a <= fst x) l ->
  stable_sort (l ++ [x]) = stable_sort l ++ [x].
Proof.
  induction 1 as [|a l Ha Hl IH]; simpl; auto.
  rewrite IH; now apply insert_sorted_before_max.
Qed.

Lemma decorate_ok (d : dict) :
  timestamps_ok d ->
  exists ks, decorate d = Return ks /\ numeric_keys ks = Some (by_stamp d).
Proof.
  induction 1 as [|[k e] d [ts Hts] Hd (ks & Hks & Hnum)].
  - exists []; auto.
  - assert (Hst : stamp (k, e) = ts) by (unfold stamp; now rewrite Hts).
    destruct e as [| | | | | | | |f|]; try discriminate.
    cbn [timestamp_of snd] in Hts.
    destruct (dict_get (str "timestamp") f) as [t|] eqn:Ht;
      [|discriminate].
    exists ((t, (k, PDict f)) :: ks); split.
    + cbn [decorate]; unfold timestamp_key, py_getitem; cbn [snd].
      now rewrite Ht, Hks.
    + cbn [numeric_keys by_stamp List.map].
      fold (by_stamp d). now rewrite Hts, Hnum, Hst.
Qed.

Lemma sorted_by_timestamp_ok (d : dict) :
  timestamps_ok d ->
  sorted_by_timestamp d = Return (List.map snd (stable_sort (by_stamp d))).
Proof.
  intros Hd; destruct (decorate_ok d Hd) as (ks & Hks & Hnum).
  unfold sorted_by_timestamp; now rewrite Hks, Hnum.
Qed.

Lemma by_stamp_snd (d : dict) : List.map snd (by_stamp d) = d.
Proof.
  unfold by_stamp; rewrite map_map; simpl; apply map_id.
Qed.

Lemma sorted_items_perm (d : dict) :
  Permutation (List.map snd (stable_sort (by_stamp d))) d.
Proof.
  rewrite <- (by_stamp_snd d) at 2.
  apply Permutation_map, stable_sort_perm.
Qed.

Lemma sorted_items_ascending (d : dict) :
  StronglySorted (fun a b => stamp a <= stamp b)
                 (List.map snd (stable_sort (by_stamp d))).
Proof.
  assert (Hkeys : Forall (fun p => fst p = stamp (snd p))
                         (stable_sort (by_stamp d))).
  { eapply Permutation_Forall; [symmetry; apply stable_sort_perm|].
    unfold by_stamp; apply Forall_forall; intros p Hp.
    apply in_map_iff in Hp as (kv & <- & _); reflexivity. }
  pose proof (stable_sort_sorted (by_stamp d)) as Hs.
  induction Hs as [|p l Hl IH Hp]; simpl; [constructor|].
  inversion Hkeys as [|? ? Hp0 Hl0]; subst.
  constructor; auto.
  apply Forall_map, Forall_forall; intros q Hq.
  rewrite Forall_forall in Hp, Hl0.
  specialize (Hp q Hq); specialize (Hl0 q Hq).
  unfold by_key in Hp; lia.
Qed.

(* ---------------------------------------------------------------- *)
(** *** The methods, step by step *)

Ltac run_method :=
  unfold bind, lift, get_field, set_memory, ret, throw; cbn [memory
    max_memory_size memory_timeout with_memory fst snd].

Lemma with_memory_same (self : pmll) : with_memory (memory self) self = self.
Proof. now destruct self. Qed.

Lemma with_memory_twice (m m' : pyval) (self : pmll) :
  with_memory m' (with_memory m self) = with_memory m' self.
Proof. reflexivity. Qed.

Lemma hash_key_str (s : pystr) :
  encodable s -> exists b, str_encode s = Return b /\
                           _hash_key (PStr s) = Return (sha256_hexdigest b).
Proof.
  unfold _hash_key, py_encode.
  induction 1 as [|c s Hc Hs (b & Hb & _)]; simpl.
  - now exists [].
  - rewrite Hc, Hb. now exists (utf8_char c ++ b).
Qed.

Lemma hash_key_no_encode (key : pyval) :
  has_encode key = false -> _hash_key key = Raise AttributeError.
Proof.
  destruct key as [| | | | | | | | |[encoded|]]; try reflexivity;
    discriminate.
Qed.

Lemma hash_key_has_encode (key : pyval) (h : pystr) :
  _hash_key key = Return h -> has_encode key = true.
Proof.
  destruct key as [| | | | | | | | |[encoded|]]; try discriminate;
    reflexivity.
Qed.

Lemma prune_loop_step (sorted_memory : list item) (self : pmll) (d : dict) :
  memory self = PDict d ->
  prune_loop sorted_memory self =
  if dict_len d >? max_memory_size self then
    match sorted_memory with
    | [] => (Raise IndexError, self)
    | (oldest_key, _) :: sorted_memory' =>
        if dict_mem oldest_key d
        then prune_loop sorted_memory'
                        (with_memory (PDict (dict_del oldest_key d)) self)
        else (Raise KeyError, self)
    end
  else (Return tt, self).
Proof.
  intros Hm.
  destruct sorted_memory as [|[k e] r]; cbn [prune_loop]; run_method;
    rewrite Hm; cbn [py_len];
    destruct (dict_len d >? max_memory_size self); auto.
  unfold py_delitem; destruct (dict_mem k d); auto.
Qed.

Lemma prune_memory_step (self : pmll) (d : dict) :
  memory self = PDict d ->
  _prune_memory self =
  match sorted_by_timestamp d with
  | Return sorted_memory => prune_loop sorted_memory self
  | Raise e => (Raise e, self)
  end.
Proof.
  intros Hm; unfold _prune_memory; run_method; rewrite Hm; cbn [py_items].
  now destruct (sorted_by_timestamp d).
Qed.

Lemma add_to_memory_step (now : Z) (key value : pyval) (self : pmll)
      (h : pystr) (d : dict) :
  _hash_key key = Return h ->
  memory self = PDict d ->
  add_to_memory now key value self =
  let self1 :=
    with_memory (PDict (dict_set h (new_entry now value) d)) self in
  if dict_len (dict_set h (new_entry now value) d) >? max_memory_size self
  then _prune_memory self1
  else (Return tt, self1).
Proof.
  intros Hh Hm; unfold add_to_memory; run_method.
  rewrite Hh, Hm; cbn [py_setitem py_len].
  now destruct (_ >? _).
Qed.

Lemma add_to_memory_bad_key (now : Z) (key value : pyval) (self : pmll)
      (e : exn) :
  _hash_key key = Raise e ->
  add_to_memory now key value self = (Raise e, self).
Proof.
  intros Hh; unfold add_to_memory; run_method. now rewrite Hh.
Qed.

Lemma add_to_memory_not_dict (now : Z) (key value : pyval) (self : pmll)
      (h : pystr) :
  _hash_key key = Return h ->
  (forall d, memory self <> PDict d) ->
  add_to_memory now key value self = (Raise TypeError, self).
Proof.
  intros Hh Hm; unfold add_to_memory; run_method. rewrite Hh.
  destruct (memory self); try reflexivity. now destruct (Hm d).
Qed.

Lemma get_from_memory_step (now : Z) (key : pyval) (self : pmll)
      (h : pystr) (d : dict) :
  _hash_key key = Return h ->
  memory self = PDict d ->
  get_from_memory now key self =
  match dict_get h d with
  | None => (Return PNone, self)
  | Some entry =>
      match py_getitem entry (str "timestamp") with
      | Raise e => (Raise e, self)
      | Return timestamp =>
          match py_sub now timestamp with
          | Raise e => (Raise e, self)
          | Return age =>
              if age <=? memory_timeout self
              then (py_getitem entry (str "data"), self)
              else (Return PNone,
                    with_memory (PDict (dict_del h d)) self)
          end
      end
  end.
Proof.
  intros Hh Hm; unfold get_from_memory; run_method.
  rewrite Hh, Hm; cbn [py_contains].
  unfold py_delitem, dict_mem; cbn [py_getitem].
  destruct (dict_get h d) as [entry|]; auto.
  destruct (py_getitem entry (str "timestamp")) as [timestamp|]; auto.
  destruct (py_sub now timestamp); auto.
  destruct (_ <=? _); auto.
Qed.

Lemma get_from_memory_bad_key (now : Z) (key : pyval) (self : pmll)
      (e : exn) :
  _hash_key key = Raise e ->
  get_from_memory now key self = (Raise e, self).
Proof.
  intros Hh; unfold get_from_memory; run_method. now rewrite Hh.
Qed.

(** The loop on a mapping whose keys are those of [sorted_memory]:
    it deletes the first [len - max_memory_size] of them, in order. *)
Lemma prune_loop_runs (sorted_memory : list item) :
  forall (self : pmll) (d : dict),
    memory self = PDict d ->
    0 <= max_memory_size self ->
    Permutation (List.map fst sorted_memory) (List.map fst d) ->
    prune_loop sorted_memory self =
    (Return tt,
     with_memory
       (PDict (delete_all
                 (firstn (Z.to_nat (dict_len d - max_memory_size self))
                         sorted_memory) d)) self).
Proof.
  induction sorted_memory as [|[k e] r IH]; intros self d Hm Hcap Hperm;
    rewrite (prune_loop_step _ self d Hm).
  - apply Permutation_nil in Hperm.
    destruct d; [|discriminate]. unfold dict_len; cbn [List.length].
    destruct (Z.gtb_spec (Z.of_nat 0) (max_memory_size self)); [lia|].
    rewrite firstn_nil; unfold delete_all; cbn [fold_left].
    now rewrite <- Hm, with_memory_same.
  - destruct (Z.gtb_spec (dict_len d) (max_memory_size self)) as [Hgt|Hle].
    + assert (Hk : dict_mem k d = true).
      { apply dict_mem_In. eapply Permutation_in; [exact Hperm|].
        now left. }
      rewrite Hk.
      rewrite (IH _ (dict_del k d)); cbn [memory max_memory_size
        with_memory]; auto.
      * rewrite dict_len_del by auto.
        replace (Z.to_nat (dict_len d - max_memory_size self))
          with (S (Z.to_nat (dict_len d - 1 - max_memory_size self)))
          by lia.
        reflexivity.
      * eapply Permutation_cons_inv with (a := k).
        rewrite dict_keys_del by auto. exact Hperm.
    + replace (Z.to_nat (dict_len d - max_memory_size self)) with 0%nat
        by lia.
      unfold delete_all; cbn [firstn fold_left].
      now rewrite <- Hm, with_memory_same.
Qed.

(** Whenever the loop returns, it has brought the count down to
    [max_memory_size], and no further. *)
Lemma prune_loop_returns (sorted_memory : list item) :
  forall (self self' : pmll) (d : dict),
    memory self = PDict d ->
    prune_loop sorted_memory self = (Return tt, self') ->
    exists d', memory self' = PDict d' /\
               max_memory_size self' = max_memory_size self /\
               memory_timeout self' = memory_timeout self /\
               dict_len d' = Z.min (dict_len d) (max_memory_size self).
Proof.
  induction sorted_memory as [|[k e] r IH]; intros self self' d Hm;
    rewrite (prune_loop_step _ self d Hm);
    destruct (Z.gtb_spec (dict_len d) (max_memory_size self)) as [Hgt|Hle];
    try discriminate;
    try (intros [= <-]; exists d; repeat split; auto; lia).
  destruct (dict_mem k d) eqn:Hk; [|discriminate].
  intros Hrun.
  apply (IH _ _ (dict_del k d)) in Hrun as (d' & H1 & H2 & H3 & H4);
    [|reflexivity].
  cbn [max_memory_size memory_timeout with_memory] in *.
  exists d'; repeat split; auto.
  rewrite dict_len_del in H4 by auto. lia.
Qed.

(* ---------------------------------------------------------------- *)
(** *** What a prune deletes and what it keeps *)

Lemma oldest_first_eq (d : dict) :
  oldest_first d = List.map snd (stable_sort (by_stamp d)).
Proof. reflexivity. Qed.

Lemma delete_all_In (victims : list item) :
  forall (d : dict) (kv : item), In kv (delete_all victims d) -> In kv d.
Proof.
  unfold delete_all; induction victims as [|x r IH]; intros d kv;
    cbn [fold_left]; auto.
  intros H; apply IH in H. eapply dict_del_In; eauto.
Qed.

Lemma delete_all_ok (victims : list item) :
  forall d : dict, dict_ok d -> dict_ok (delete_all victims d).
Proof.
  unfold delete_all; induction victims as [|x r IH]; intros d Hd;
    cbn [fold_left]; auto using dict_ok_del.
Qed.

Lemma delete_all_get_other (victims : list item) (k : pystr) :
  forall d : dict,
    ~ In k (List.map fst victims) ->
    dict_get k (delete_all victims d) = dict_get k d.
Proof.
  unfold delete_all; induction victims as [|x r IH]; intros d Hk;
    cbn [fold_left]; auto.
  rewrite IH by (intros H; apply Hk; now right).
  apply dict_get_del_other. intros ->; apply Hk; now left.
Qed.

Lemma delete_all_get_victim (victims : list item) (k : pystr) :
  forall d : dict,
    dict_ok d ->
    In k (List.map fst victims) ->
    dict_get k (delete_all victims d) = None.
Proof.
  induction victims as [|x r IH]; intros d Hd Hk; [destruct Hk|].
  destruct (in_dec (list_eq_dec N.eq_dec) k (List.map fst r)) as [Hr|Hr].
  - apply (IH (dict_del (fst x) d)); auto using dict_ok_del.
  - destruct Hk as [<-|Hk]; [|contradiction].
    change (delete_all (x :: r) d)
      with (delete_all r (dict_del (fst x) d)).
    rewrite delete_all_get_other by auto.
    now apply dict_get_del_same.
Qed.

Lemma sorted_app_le (R : item -> item -> Prop) (l1 l2 : list item) :
  StronglySorted R (l1 ++ l2) ->
  forall a b, In a l1 -> In b l2 -> R a b.
Proof.
  induction l1 as [|x l1 IH]; simpl; intros Hs a b Ha Hb; [tauto|].
  inversion Hs as [|? ? Hs' Hx]; subst.
  destruct Ha as [<-|Ha].
  - rewrite Forall_forall in Hx; apply Hx, in_or_app; now right.
  - eapply IH; eauto.
Qed.

Lemma sorted_prefix (R : item -> item -> Prop) (l : list item) (n : nat) :
  StronglySorted R l -> StronglySorted R (firstn n l).
Proof.
  intros Hs; revert n; induction Hs as [|x l Hl IH Hx]; intros [|n];
    cbn [firstn]; try constructor; auto.
  rewrite Forall_forall in *; intros y Hy.
  apply Hx. rewrite <- (firstn_skipn n l). apply in_or_app; now left.
Qed.

(** The oldest go: nothing that is deleted is younger than anything
    that is kept. *)
Lemma evicted_older (size : Z) (d : dict) (e s : item) :
  dict_ok d ->
  In e (evicted size d) ->
  In s (delete_all (evicted size d) d) ->
  stamp e <= stamp s.
Proof.
  intros Hd He Hs; unfold evicted in *.
  set (n := Z.to_nat (dict_len d - size)) in *.
  pose proof (sorted_items_ascending d) as Hsorted.
  rewrite <- oldest_first_eq, <- (firstn_skipn n (oldest_first d))
    in Hsorted.
  eapply (sorted_app_le _ _ _ Hsorted); auto.
  assert (Hin : In s (oldest_first d)).
  { eapply Permutation_in;
      [symmetry; rewrite oldest_first_eq; apply sorted_items_perm|].
    eapply delete_all_In; eauto. }
  rewrite <- (firstn_skipn n (oldest_first d)) in Hin.
  apply in_app_or in Hin as [Hin|Hin]; auto.
  exfalso.
  assert (Hget : dict_get (fst s)
                   (delete_all (firstn n (oldest_first d)) d) = None).
  { apply delete_all_get_victim; auto. now apply in_map. }
  apply dict_get_None in Hget; apply Hget. now apply in_map.
Qed.

(** Every item is deleted or kept. *)
Lemma evicted_or_kept (victims : list item) :
  forall (d : dict) (kv : item),
    In kv d -> In (fst kv) (List.map fst victims) \/
               In kv (delete_all victims d).
Proof.
  induction victims as [|x r IH]; intros d kv Hkv; [now right|].
  destruct (pystr_eqb_spec (fst kv) (fst x)) as [E|N].
  - left; left; auto.
  - change (delete_all (x :: r) d)
      with (delete_all r (dict_del (fst x) d)).
    destruct (IH (dict_del (fst x) d) kv) as [H|H]; auto.
    + clear IH; induction d as [|[k' v'] d IHd]; [destruct Hkv|].
      cbn [dict_del]. destruct (pystr_eqb_spec (fst x) k') as [E|Hk].
      * destruct Hkv as [<-|Hkv]; [now destruct N | auto].
      * destruct Hkv as [<-|Hkv]; [now left | right; auto].
    + left; now right.
Qed.

Lemma entries_timestamps (d : dict) : entries_ok d -> timestamps_ok d.
Proof.
  apply Forall_impl; now intros kv [H _].
Qed.

Lemma new_entry_ok (h : pystr) (now : Z) (value : pyval) :
  entry_ok (h, new_entry now value).
Proof.
  split; [exists now | exists value]; reflexivity.
Qed.

Lemma entries_ok_set (h : pystr) (now : Z) (value : pyval) (d : dict) :
  entries_ok d -> entries_ok (dict_set h (new_entry now value) d).
Proof.
  unfold entries_ok; rewrite !Forall_forall; intros Hd kv Hkv.
  apply dict_set_In in Hkv as [->|Hkv]; auto using new_entry_ok.
Qed.

Lemma entries_ok_delete_all (victims : list item) (d : dict) :
  entries_ok d -> entries_ok (delete_all victims d).
Proof.
  unfold entries_ok; rewrite !Forall_forall; intros Hd kv Hkv.
  eapply Hd, delete_all_In; eauto.
Qed.

(** A put on a mapping of timestamped entries returns, and leaves the
    mapping with the new entry written and the oldest entries
    deleted. *)
Lemma add_to_memory_runs (now : Z) (key value : pyval) (self : pmll)
      (h : pystr) (d : dict) :
  _hash_key key = Return h ->
  memory self = PDict d ->
  timestamps_ok d ->
  0 <= max_memory_size self ->
  let d1 := dict_set h (new_entry now value) d in
  add_to_memory now key value self =
  (Return tt,
   with_memory
     (PDict (delete_all (evicted (max_memory_size self) d1) d1)) self).
Proof.
  intros Hh Hm Hts Hcap d1.
  rewrite (add_to_memory_step now key value self h d Hh Hm).
  fold d1; cbv zeta.
  assert (Hts1 : timestamps_ok d1).
  { unfold timestamps_ok, d1; rewrite Forall_forall; intros kv Hkv.
    apply dict_set_In in Hkv as [->|Hkv]; [now exists now|].
    unfold timestamps_ok in Hts; rewrite Forall_forall in Hts; auto. }
  destruct (Z.gtb_spec (dict_len d1) (max_memory_size self)) as [Hgt|Hle].
  - rewrite (prune_memory_step _ d1) by reflexivity.
    rewrite sorted_by_timestamp_ok by auto.
    rewrite (prune_loop_runs _ _ d1); auto.
    apply Permutation_map, sorted_items_perm.
  - unfold evicted.
    replace (Z.to_nat (dict_len d1 - max_memory_size self)) with 0%nat
      by lia.
    reflexivity.
Qed.

Lemma add_to_memory_keeps_ok (now : Z) (key value : pyval)
      (self : pmll) (s : pystr) :
  store_ok self ->
  0 <= max_memory_size self ->
  encodable s ->
  exists self',
    add_to_memory now (PStr s) value self = (Return tt, self') /\
    store_ok self' /\
    max_memory_size self' = max_memory_size self /\
    memory_timeout self' = memory_timeout self.
Proof.
  intros [d Hm Hd He] Hcap Hs.
  destruct (hash_key_str s Hs) as (b & _ & Hh).
  eexists; split.
  - apply (add_to_memory_runs now (PStr s) value self _ d Hh Hm);
      auto using entries_timestamps.
  - split; [|split; reflexivity].
    econstructor; [reflexivity| |].
    + apply delete_all_ok, dict_ok_set, Hd.
    + apply entries_ok_delete_all, entries_ok_set, He.
Qed.

(* ---------------------------------------------------------------- *)
(** *** The configuration never changes *)

Lemma prune_loop_config (sorted_memory : list item) :
  forall (self self' : pmll) (r : result unit),
    prune_loop sorted_memory self = (r, self') -> same_config self self'.
Proof.
  unfold same_config.
  induction sorted_memory as [|[k e] rest IH]; intros self self' r;
    cbn [prune_loop]; run_method;
    destruct (py_len (memory self)); try (intros [= <- <-]; now auto);
    destruct (_ >? _); try (intros [= <- <-]; now auto).
  destruct (py_delitem (memory self) k); try (intros [= <- <-]; now auto).
  intros H; apply IH in H; apply H.
Qed.

Lemma add_to_memory_config (now : Z) (key value : pyval)
      (self self' : pmll) (r : result unit) :
  add_to_memory now key value self = (r, self') -> same_config self self'.
Proof.
  unfold add_to_memory, _prune_memory; run_method.
  destruct (_hash_key key); try (intros [= <- <-]; now split).
  destruct (py_setitem (memory self) a _) as [m'|];
    try (intros [= <- <-]; now split).
  destruct (py_len m'); try (intros [= <- <-]; now split).
  destruct (_ >? _); try (intros [= <- <-]; now split).
  cbn [memory with_memory].
  destruct (py_items m') as [items|]; try (intros [= <- <-]; now split).
  destruct (sorted_by_timestamp items);
    try (intros [= <- <-]; now split).
  intros H; apply prune_loop_config in H; apply H.
Qed.

Lemma add_all_config (calls : list (Z * pyval * pyval)) :
  forall (self self' : pmll) (r : result unit),
    add_all calls self = (r, self') -> same_config self self'.
Proof.
  induction calls as [|[[now key] value] calls IH]; intros self self' r;
    cbn [add_all].
  - intros [= <- <-]; now split.
  - unfold bind.
    destruct (add_to_memory now key value self) as [[[]|e] mid] eqn:Hadd;
      apply add_to_memory_config in Hadd as [H1 H2].
    + intros H; apply IH in H as [H3 H4]. split; congruence.
    + intros [= <- <-]; now split.
Qed.

Lemma add_to_memory_returned (now : Z) (key value : pyval)
      (self self' : pmll) :
  add_to_memory now key value self = (Return tt, self') ->
  exists h d d',
    _hash_key key = Return h /\
    memory self = PDict d /\
    memory self' = PDict d' /\
    dict_len d' =
    Z.min (dict_len (dict_set h (new_entry now value) d))
          (max_memory_size self).
Proof.
  intros Hadd.
  destruct (_hash_key key) as [h|e] eqn:Hh;
    [|rewrite (add_to_memory_bad_key _ _ _ _ e Hh) in Hadd; discriminate].
  destruct (memory self) as [| | | | | | | |d|] eqn:Hm;
    try (rewrite (add_to_memory_not_dict _ _ _ _ h Hh) in Hadd;
         [discriminate | intros d; rewrite Hm; discriminate]).
  rewrite (add_to_memory_step _ _ _ _ h d Hh Hm) in Hadd; cbv zeta in Hadd.
  exists h, d.
  destruct (Z.gtb_spec (dict_len (dict_set h (new_entry now value) d))
                       (max_memory_size self)) as [Hgt|Hle].
  - set (d1 := dict_set h (new_entry now value) d) in *.
    rewrite (prune_memory_step (with_memory (PDict d1) self) d1 eq_refl)
      in Hadd.
    destruct (sorted_by_timestamp d1) as [sorted_memory|];
      [|discriminate].
    apply (prune_loop_returns
             _ (with_memory (PDict d1) self) _ d1 eq_refl) in Hadd
      as (d' & H1 & _ & _ & H4).
    exists d'; auto.
  - injection Hadd as <-. eexists; repeat split; auto.
    cbn [memory with_memory]; lia.
Qed.

(* ---------------------------------------------------------------- *)
(** *** Capacity *)

(** C2.  After any run of [add_to_memory] calls, on any store, a
    further call that returns leaves at most [max_memory_size]
    entries, and exactly that many when writing the entry had pushed
    the count over it.  On a store that holds a mapping of
    timestamped entries, with a capacity that is not negative and
    keys that are encodable strings, every call of the run does
    return. *)
Theorem entries_within_capacity (self : pmll)
        (calls : list (Z * pyval * pyval)) :
  (forall (now : Z) (key value : pyval) (mid self' : pmll),
      add_all calls self = (Return tt, mid) ->
      add_to_memory now key value mid = (Return tt, self') ->
      exists h d d',
        _hash_key key = Return h /\
        memory mid = PDict d /\
        memory self' = PDict d' /\
        dict_len d' <= max_memory_size self /\
        (dict_len (dict_set h (new_entry now value) d)
         > max_memory_size self ->
         dict_len d' = max_memory_size self)) /\
  (store_ok self ->
   0 <= max_memory_size self ->
   Forall str_key calls ->
   exists self',
     add_all calls self = (Return tt, self') /\
     store_ok self' /\
     (calls <> [] -> entries self' <= max_memory_size self)).
Proof.
  split.
  - intros now key value mid self' Hrun Hadd.
    apply add_all_config in Hrun as [Hcap _].
    apply add_to_memory_returned in Hadd as (h & d & d' & Hh & Hm & Hm' & Hlen).
    exists h, d, d'. rewrite Hlen, Hcap.
    repeat split; auto; lia.
  - revert self; induction calls as [|[[now key] value] calls IH];
      intros self Hok Hcap Hkeys.
    + exists self; repeat split; auto. congruence.
    + inversion Hkeys as [|? ? (s & Hs & Henc) Hrest]; subst.
      cbn [fst snd] in Hs; subst key.
      destruct (add_to_memory_keeps_ok now (PStr s) value self s Hok Hcap Henc)
        as (mid & Hadd & Hmid & Hcap' & _).
      destruct (IH mid Hmid) as (self' & Hrun & Hok' & Hbound);
        auto; [lia|].
      exists self'; cbn [add_all]; unfold bind; rewrite Hadd.
      repeat split; auto. intros _.
      destruct calls as [|c calls'].
      * cbn [add_all] in Hrun; injection Hrun as <-.
        apply add_to_memory_returned in Hadd
          as (h & d & d' & _ & _ & Hm' & Hlen).
        unfold entries; rewrite Hm', Hlen; lia.
      * rewrite <- Hcap'; apply Hbound; discriminate.
Qed.

(* ---------------------------------------------------------------- *)
(** *** Reading back what was written *)

Lemma new_entry_timestamp (now : Z) (value : pyval) :
  py_getitem (new_entry now value) (str "timestamp") = Return (PNum now).
Proof. reflexivity. Qed.

Lemma new_entry_data (now : Z) (value : pyval) :
  py_getitem (new_entry now value) (str "data") = Return value.
Proof. reflexivity. Qed.

Lemma get_from_memory_fresh (now' now : Z) (key value : pyval)
      (self : pmll) (h : pystr) (d : dict) :
  _hash_key key = Return h ->
  memory self = PDict d ->
  dict_get h d = Some (new_entry now value) ->
  now' - now <= memory_timeout self ->
  get_from_memory now' key self = (Return value, self).
Proof.
  intros Hh Hm Hget Hage.
  rewrite (get_from_memory_step _ _ _ h d Hh Hm), Hget.
  rewrite new_entry_timestamp, new_entry_data.
  unfold py_sub; cbn [to_float].
  now destruct (Z.leb_spec (now' - now) (memory_timeout self)); [|lia].
Qed.

Lemma by_stamp_bounded (now : Z) (d : dict) :
  timestamps_ok d -> not_after now d ->
  Forall (fun a => fst a <= now) (by_stamp d).
Proof.
  unfold timestamps_ok, not_after, by_stamp; rewrite !Forall_forall.
  intros Hts Hle a Ha. apply in_map_iff in Ha as (kv & <- & Hkv).
  cbn [fst]; unfold stamp.
  destruct (Hts kv Hkv) as [ts Hkv']. rewrite Hkv'. eauto.
Qed.

(** A new key written at a time no entry is younger than is the last
    that [sorted] returns. *)
Lemma oldest_first_new_last (now : Z) (h : pystr) (value : pyval)
      (d : dict) :
  timestamps_ok d -> not_after now d ->
  oldest_first (d ++ [(h, new_entry now value)]) =
  oldest_first d ++ [(h, new_entry now value)].
Proof.
  intros Hts Hle. unfold oldest_first, by_stamp.
  rewrite map_app; cbn [List.map]. fold (by_stamp d).
  change (stamp (h, new_entry now value)) with now.
  rewrite stable_sort_max_last, map_app; auto.
  now apply by_stamp_bounded.
Qed.

(** The put that has just been made is not what its own prune
    deletes. *)
Lemma new_entry_survives (now : Z) (h : pystr) (value : pyval)
      (d : dict) (size : Z) :
  timestamps_ok d -> not_after now d ->
  dict_len d <= size -> 1 <= size ->
  let d1 := dict_set h (new_entry now value) d in
  dict_get h (delete_all (evicted size d1) d1) = Some (new_entry now value).
Proof.
  intros Hts Hle Hlen Hsize d1.
  rewrite delete_all_get_other; [apply dict_get_set_same|].
  unfold evicted. pose proof (dict_len_set h (new_entry now value) d) as Hl.
  fold d1 in Hl.
  destruct (dict_mem h d) eqn:Hmem.
  - replace (Z.to_nat (dict_len d1 - size)) with 0%nat by lia.
    intros [].
  - destruct (Z.leb_spec (dict_len d1) size) as [Hfit|Hover].
    + replace (Z.to_nat (dict_len d1 - size)) with 0%nat by lia.
      intros [].
    + replace (Z.to_nat (dict_len d1 - size)) with 1%nat by lia.
      unfold d1; rewrite dict_set_absent by auto.
      rewrite oldest_first_new_last by auto.
      pose proof (sorted_items_perm d) as Hperm.
      rewrite <- oldest_first_eq in Hperm.
      destruct (oldest_first d) as [|o rest] eqn:Ho.
      * apply Permutation_nil in Hperm. subst d.
        unfold dict_len in *; cbn [List.length] in *; lia.
      * cbn [app firstn List.map]. intros [E|[]].
        assert (Hin : In (fst o) (List.map fst d)).
        { apply in_map. eapply Permutation_in; [exact Hperm|now left]. }
        apply dict_mem_In in Hin. congruence.
Qed.

(** C1, as the code has it.  On a store that holds a mapping of
    timestamped entries, none of them younger than [now], with no
    more entries than [max_memory_size] and room for at least one,
    [add_to_memory] at [now] returns, and [get_from_memory] at any
    time within [memory_timeout] of [now] returns the value just
    written and leaves the store as it is. *)
Theorem get_after_add (self : pmll) (now now' : Z) (s : pystr)
        (value : pyval) (d : dict) :
  encodable s ->
  memory self = PDict d ->
  timestamps_ok d ->
  not_after now d ->
  dict_len d <= max_memory_size self ->
  1 <= max_memory_size self ->
  now' - now <= memory_timeout self ->
  exists self',
    add_to_memory now (PStr s) value self = (Return tt, self') /\
    get_from_memory now' (PStr s) self' = (Return value, self').
Proof.
  intros Hs Hm Hts Hle Hlen Hsize Hage.
  destruct (hash_key_str s Hs) as (b & _ & Hh).
  eexists; split.
  - apply (add_to_memory_runs now (PStr s) value self _ d Hh Hm); auto.
    lia.
  - eapply get_from_memory_fresh; eauto; [reflexivity|].
    now apply new_entry_survives.
Qed.

(* ---------------------------------------------------------------- *)
(** *** Found, not found, expired *)

Lemma get_from_memory_absent (now : Z) (key : pyval) (self : pmll)
      (h : pystr) (d : dict) :
  _hash_key key = Return h ->
  memory self = PDict d ->
  dict_get h d = None ->
  get_from_memory now key self = (Return PNone, self).
Proof.
  intros Hh Hm Hget.
  now rewrite (get_from_memory_step _ _ _ h d Hh Hm), Hget.
Qed.

(** A get that finds an entry goes by the age the subtraction gives. *)
Lemma get_from_memory_aged (now : Z) (key : pyval) (self : pmll)
      (h : pystr) (d : dict) (e t : pyval) (age : Z) :
  _hash_key key = Return h ->
  memory self = PDict d ->
  dict_get h d = Some e ->
  py_getitem e (str "timestamp") = Return t ->
  py_sub now t = Return age ->
  get_from_memory now key self =
  if age <=? memory_timeout self
  then (py_getitem e (str "data"), self)
  else (Return PNone, with_memory (PDict (dict_del h d)) self).
Proof.
  intros Hh Hm Hget Ht Hage.
  now rewrite (get_from_memory_step _ _ _ h d Hh Hm), Hget, Ht, Hage.
Qed.

Lemma data_of_getitem (e v : pyval) :
  data_of e = Some v -> py_getitem e (str "data") = Return v.
Proof.
  destruct e; try discriminate. cbn [data_of py_getitem].
  now intros ->.
Qed.

(** A result other than [None] comes from one place only: the
    ["data"] of an entry that is there and has not expired. *)
Lemma get_from_memory_value (now : Z) (key v : pyval)
      (self self' : pmll) :
  get_from_memory now key self = (Return v, self') ->
  v <> PNone ->
  exists h d e t age,
    _hash_key key = Return h /\
    memory self = PDict d /\
    dict_get h d = Some e /\
    py_getitem e (str "timestamp") = Return t /\
    py_sub now t = Return age /\
    age <= memory_timeout self /\
    data_of e = Some v /\
    self' = self.
Proof.
  intros Hget Hv.
  destruct (_hash_key key) as [h|x] eqn:Hh;
    [|rewrite (get_from_memory_bad_key _ _ _ x Hh) in Hget; discriminate].
  destruct (memory self) as [| | | |s' |b |l |l |d|o] eqn:Hm.
  1-8,10: exfalso; revert Hget; unfold get_from_memory; run_method;
    rewrite Hh, Hm; cbn [py_contains py_getitem];
    try destruct (is_substring h s'); try destruct (existsb _ l);
    intros [= Hr _]; congruence.
  rewrite (get_from_memory_step _ _ _ h d Hh Hm) in Hget.
  destruct (dict_get h d) as [e|] eqn:He; [|injection Hget; congruence].
  destruct (py_getitem e (str "timestamp")) as [t|] eqn:Ht; [|discriminate].
  destruct (py_sub now t) as [age|] eqn:Hage; [|discriminate].
  destruct (Z.leb_spec age (memory_timeout self)) as [Hle|Hgt];
    [|injection Hget; congruence].
  destruct e as [| | | | | | | |f|]; try discriminate.
  cbn [py_getitem] in Hget.
  destruct (dict_get (str "data") f) as [v'|] eqn:Hd; [|discriminate].
  injection Hget as -> <-.
  exists h, d, (PDict f), t, age; cbn [data_of]. auto 10.
Qed.

(** C3, as the code has it.  [get_from_memory] has no separate
    not-found signal.  It returns [None] when there is no entry under
    the digest.  For an entry that is there and whose timestamp can be
    subtracted from the clock, it returns the stored ["data"] or
    [None]: with [age] what the subtraction gives, below 2^53 in
    magnitude, the stored ["data"] when [age <= memory_timeout] and
    [None] when not.  A result other than [None] is therefore always
    the ["data"] of the entry under the digest, and the store is then
    as it was; a stored [None] comes back as the same [None] that
    stands for not found. *)
Theorem found_unless_none (self : pmll) (now : Z) (key : pyval) :
  (forall h d,
      _hash_key key = Return h -> memory self = PDict d ->
      dict_get h d = None ->
      fst (get_from_memory now key self) = Return PNone) /\
  (forall h d e t age v,
      _hash_key key = Return h -> memory self = PDict d ->
      dict_get h d = Some e ->
      py_getitem e (str "timestamp") = Return t ->
      py_sub now t = Return age ->
      Z.abs age < 2 ^ 53 ->
      data_of e = Some v ->
      fst (get_from_memory now key self) =
      Return (if age <=? memory_timeout self then v else PNone)) /\
  (forall h d e t v,
      _hash_key key = Return h -> memory self = PDict d ->
      dict_get h d = Some e ->
      py_getitem e (str "timestamp") = Return t ->
      returns (py_sub now t) ->
      data_of e = Some v ->
      fst (get_from_memory now key self) = Return v \/
      fst (get_from_memory now key self) = Return PNone) /\
  (forall v self',
      get_from_memory now key self = (Return v, self') ->
      v <> PNone ->
      exists h d e t,
        _hash_key key = Return h /\ memory self = PDict d /\
        dict_get h d = Some e /\
        py_getitem e (str "timestamp") = Return t /\
        returns (py_sub now t) /\
        data_of e = Some v /\
        self' = self).
Proof.
  split; [|split; [|split]].
  - intros h d Hh Hm Hget.
    now rewrite (get_from_memory_absent _ _ _ h d Hh Hm Hget).
  - intros h d e t age v Hh Hm Hget Ht Hage _ Hv.
    rewrite (get_from_memory_aged _ _ _ h d e t age Hh Hm Hget Ht Hage).
    rewrite (data_of_getitem _ _ Hv).
    now destruct (_ <=? _).
  - intros h d e t v Hh Hm Hget Ht [age Hage] Hv.
    rewrite (get_from_memory_aged _ _ _ h d e t age Hh Hm Hget Ht Hage).
    rewrite (data_of_getitem _ _ Hv).
    destruct (_ <=? _); [now left | now right].
  - intros v self' Hget Hv.
    destruct (get_from_memory_value _ _ _ _ _ Hget Hv)
      as (h & d & e & t & age & Hh & Hm & He & Ht & Hage & _ & Hd & Hs).
    exists h, d, e, t. repeat split; auto. now exists age.
Qed.


(* ---------------------------------------------------------------- *)
(** *** Eviction *)

Lemma stamp_new_entry (h : pystr) (now : Z) (value : pyval) :
  stamp (h, new_entry now value) = now.
Proof. reflexivity. Qed.

Lemma evicted_items (size : Z) (d : dict) (kv : item) :
  dict_ok d -> In kv d ->
  In (fst kv) (List.map fst (evicted size d)) -> In kv (evicted size d).
Proof.
  intros Hd Hkv Hk. apply in_map_iff in Hk as (kv' & Hfst & Hin).
  assert (Hin' : In kv' d).
  { eapply Permutation_in; [apply sorted_items_perm|].
    rewrite <- oldest_first_eq.
    rewrite <- (firstn_skipn (Z.to_nat (dict_len d - size))
                             (oldest_first d)).
    apply in_or_app; left; exact Hin. }
  destruct kv as [k v], kv' as [k' v']; cbn [fst] in Hfst; subst k'.
  apply (In_dict_get _ _ _ Hd) in Hkv.
  apply (In_dict_get _ _ _ Hd) in Hin'.
  assert (v' = v) by congruence. now subst v'.
Qed.

Ltac keys :=
  repeat (rewrite pystr_eqb_refl || rewrite pystr_eqb_neq by congruence).

Lemma add_to_memory_next (now : Z) (key value : pyval) (self : pmll)
      (h : pystr) (d : dict) :
  _hash_key key = Return h ->
  timestamps_ok d ->
  0 <= max_memory_size self ->
  let d1 := dict_set h (new_entry now value) d in
  add_to_memory now key value (with_memory (PDict d) self) =
  (Return tt,
   with_memory
     (PDict (delete_all (evicted (max_memory_size self) d1) d1)) self).
Proof.
  intros Hh Hts Hcap.
  apply (add_to_memory_runs now key value (with_memory (PDict d) self) h d);
    auto.
Qed.

(** Three puts into an empty store of capacity 2, at increasing
    times and under three different digests: the first is gone. *)
Lemma three_puts (timeout : Z) (a b c va vb vc : pyval)
      (ha hb hc : pystr) (t1 t2 t3 : Z) :
  _hash_key a = Return ha ->
  _hash_key b = Return hb ->
  _hash_key c = Return hc ->
  ha <> hb -> ha <> hc -> hb <> hc ->
  t1 < t2 -> t2 < t3 ->
  add_all [(t1, a, va); (t2, b, vb); (t3, c, vc)] (__init__ timeout 2) =
  (Return tt,
   with_memory (PDict [(hb, new_entry t2 vb); (hc, new_entry t3 vc)])
               (__init__ timeout 2)).
Proof.
  intros Ha Hb Hc Hab Hac Hbc H12 H23.
  set (self := __init__ timeout 2).
  assert (Hcap : 0 <= max_memory_size self) by (cbn; lia).
  change (max_memory_size self) with 2 in Hcap.
  cbn [add_all]; unfold bind.
  change self with (with_memory (PDict []) self) at 1.
  rewrite (add_to_memory_next t1 a va self ha [] Ha); [|constructor|exact Hcap].
  change (max_memory_size self) with 2.
  cbn [dict_set]. unfold evicted at 1.
  replace (Z.to_nat (dict_len [(ha, new_entry t1 va)] - 2)) with 0%nat
    by (unfold dict_len; simpl; lia).
  cbn [firstn delete_all fold_left].
  rewrite (add_to_memory_next t2 b vb self hb _ Hb);
    [|repeat constructor; now exists t1|exact Hcap].
  change (max_memory_size self) with 2.
  cbn [dict_set]; keys. unfold evicted at 1.
  replace (Z.to_nat (dict_len [(ha, new_entry t1 va); (hb, new_entry t2 vb)]
                     - 2)) with 0%nat by (unfold dict_len; simpl; lia).
  cbn [firstn delete_all fold_left].
  rewrite (add_to_memory_next t3 c vc self hc _ Hc);
    [|repeat constructor; [now exists t1 | now exists t2]|exact Hcap].
  change (max_memory_size self) with 2.
  cbn [dict_set]; keys. unfold evicted, oldest_first, by_stamp.
  replace (Z.to_nat (dict_len [(ha, new_entry t1 va); (hb, new_entry t2 vb);
                               (hc, new_entry t3 vc)] - 2))
    with 1%nat by (unfold dict_len; simpl; lia).
  cbn [List.map stable_sort insert_sorted]; rewrite !stamp_new_entry.
  cbn [fst insert_sorted].
  destruct (Z.leb_spec t2 t3); [|lia]. cbn [insert_sorted fst].
  destruct (Z.leb_spec t1 t2); [|lia].
  cbn [List.map snd firstn delete_all fold_left fst dict_del]; keys.
  reflexivity.
Qed.

(** C5.  A put on a mapping of timestamped entries deletes, head
    first, the first [len - max_memory_size] items of the list
    [sorted] returns; that list holds the items in ascending order of
    timestamp, so that nothing deleted is younger than anything kept,
    and the count ends at [max_memory_size].  In particular three
    puts [a], [b], [c] into an empty store of capacity 2, at
    increasing times and under different digests, leave [a] not
    found and [b] and [c] found while they have not expired. *)
Theorem eviction_oldest_first :
  (forall (self : pmll) (now : Z) (key value : pyval) (h : pystr)
          (d : dict),
      _hash_key key = Return h ->
      memory self = PDict d ->
      dict_ok d ->
      timestamps_ok d ->
      0 <= max_memory_size self ->
      let d1 := dict_set h (new_entry now value) d in
      let gone := evicted (max_memory_size self) d1 in
      let kept := delete_all gone d1 in
      sorted_by_timestamp d1 = Return (oldest_first d1) /\
      Permutation (oldest_first d1) d1 /\
      StronglySorted (fun x y => stamp x <= stamp y) (oldest_first d1) /\
      add_to_memory now key value self =
      (Return tt, with_memory (PDict kept) self) /\
      dict_len kept = Z.min (dict_len d1) (max_memory_size self) /\
      (forall x y, In x gone -> In y kept -> stamp x <= stamp y) /\
      (forall x, In x d1 -> In x gone \/ In x kept)) /\
  (forall (timeout : Z) (a b c va vb vc : pyval) (ha hb hc : pystr)
          (t1 t2 t3 ta tb tc : Z),
      _hash_key a = Return ha ->
      _hash_key b = Return hb ->
      _hash_key c = Return hc ->
      ha <> hb -> ha <> hc -> hb <> hc ->
      t1 < t2 -> t2 < t3 ->
      tb - t2 <= timeout -> tc - t3 <= timeout ->
      exists self',
        add_all [(t1, a, va); (t2, b, vb); (t3, c, vc)]
                (__init__ timeout 2) = (Return tt, self') /\
        get_from_memory ta a self' = (Return PNone, self') /\
        get_from_memory tb b self' = (Return vb, self') /\
        get_from_memory tc c self' = (Return vc, self')).
Proof.
  split.
  - intros self now key value h d Hh Hm Hd Hts Hcap d1 gone kept.
    assert (Hts1 : timestamps_ok d1).
    { unfold timestamps_ok, d1; rewrite Forall_forall; intros kv Hkv.
      apply dict_set_In in Hkv as [->|Hkv]; [now exists now|].
      unfold timestamps_ok in Hts; rewrite Forall_forall in Hts; auto. }
    assert (Hd1 : dict_ok d1) by now apply dict_ok_set.
    pose proof (add_to_memory_runs now key value self h d Hh Hm Hts Hcap)
      as Hrun; cbv zeta in Hrun; fold d1 gone kept in Hrun.
    split; [now apply sorted_by_timestamp_ok|].
    split; [apply sorted_items_perm|].
    split; [apply sorted_items_ascending|].
    split; [exact Hrun|].
    split; [|split].
    + apply add_to_memory_returned in Hrun
        as (h' & d' & d'' & Hh' & Hm' & Hm'' & Hlen).
      cbn [memory with_memory] in Hm''. injection Hm'' as <-.
      assert (h' = h) by congruence. assert (d' = d) by congruence.
      subst h' d'. exact Hlen.
    + intros x y Hx Hy. now apply (evicted_older (max_memory_size self) d1).
    + intros x Hx.
      destruct (evicted_or_kept gone d1 x Hx) as [Hk|Hk]; auto.
      left. now apply evicted_items.
  - intros timeout a b c va vb vc ha hb hc t1 t2 t3 ta tb tc
      Ha Hb Hc Hab Hac Hbc H12 H23 Hfb Hfc.
    eexists; split; [now apply (three_puts timeout a b c va vb vc ha hb hc)|].
    repeat split.
    + eapply get_from_memory_absent; eauto; [reflexivity|].
      cbn [dict_get]; now keys.
    + eapply get_from_memory_fresh; eauto; [reflexivity|].
      cbn [dict_get]; now keys.
    + eapply get_from_memory_fresh; eauto; [reflexivity|].
      cbn [dict_get]; now keys.
Qed.

(* ---------------------------------------------------------------- *)
(** *** Saving and loading *)





























(** C7.  [load_memory] on a file whose text is not JSON raises
    [JSONDecodeError], which is neither the outcome of a missing
    file nor that of a file that cannot be opened, and leaves the
    store as it was. *)
Theorem load_malformed (self : pmll) (filename : pystr) (fs : filesystem) :
  fs filename = Data Garbage ->
  load_memory filename fs self = (Raise JSONDecodeError, self).
Proof.
  intros Hf; unfold load_memory; now rewrite Hf.
Qed.

(** C8, as the code has it.  [load_memory] on a path for which
    [open] raises [FileNotFoundError] (no file of that name, or no
    directory to hold one) returns, and leaves a store whose [memory]
    is an empty mapping and whose configuration is as it was.  Any
    other exception of [open] comes out of the call, with the store
    as it was. *)
Theorem load_missing (self : pmll) (filename : pystr) (fs : filesystem) :
  (open_for_reading (fs filename) = Raise FileNotFoundError ->
   exists self',
     load_memory filename fs self = (Return tt, self') /\
     memory self' = PDict [] /\
     entries self' = 0 /\
     same_config self self') /\
  (forall e,
      open_for_reading (fs filename) = Raise e ->
      e <> FileNotFoundError ->
      load_memory filename fs self = (Raise e, self)).
Proof.
  unfold load_memory, open_and_load. split.
  - intros ->. exists (with_memory (PDict []) self).
    repeat split.
  - intros e -> He. now destruct e.
Qed.

Lemma lacks_timestamp_raises (e : pyval) :
  lacks_timestamp e = true -> raises (py_getitem e (str "timestamp")).
Proof.
  destruct e as [| | | | | | | |f|]; cbn [lacks_timestamp py_getitem];
    try (now exists TypeError).
  unfold dict_mem. destruct (dict_get (str "timestamp") f); [discriminate|].
  now exists KeyError.
Qed.

(** C10.  [load_memory] on a file that holds a JSON document returns
    and makes that document the [memory], whatever its shape.  After
    that, [get_from_memory] for a key whose digest the document maps
    to an entry without a ["timestamp"] field raises. *)
Theorem load_unvalidated (self : pmll) (filename : pystr)
        (fs : filesystem) (doc : pyval) :
  fs filename = Data (Json doc) ->
  load_memory filename fs self = (Return tt, with_memory doc self) /\
  forall now key h d e,
    _hash_key key = Return h ->
    doc = PDict d ->
    dict_get h d = Some e ->
    lacks_timestamp e = true ->
    raises (fst (get_from_memory now key (with_memory doc self))).
Proof.
  intros Hf; split.
  - unfold load_memory; now rewrite Hf.
  - intros now key h d e Hh -> He Hlack.
    rewrite (get_from_memory_step
               now key (with_memory (PDict d) self) h d Hh eq_refl), He.
    destruct (lacks_timestamp_raises e Hlack) as [x ->].
    now exists x.
Qed.

(* ---------------------------------------------------------------- *)
(** *** Keys *)

Lemma timestamp_of_getitem (e : pyval) (ts : Z) :
  timestamp_of e = Some ts ->
  exists t, py_getitem e (str "timestamp") = Return t /\
            as_number t = Some ts.
Proof.
  destruct e as [| | | | | | | |f|]; try discriminate.
  cbn [timestamp_of py_getitem].
  destruct (dict_get (str "timestamp") f) as [t|]; [|discriminate].
  intros Ht; now exists t.
Qed.

Lemma get_from_memory_runs (now : Z) (key : pyval) (self : pmll)
      (h : pystr) :
  _hash_key key = Return h ->
  store_ok self ->
  (forall d, memory self = PDict d -> subtractable d) ->
  exists v self', get_from_memory now key self = (Return v, self').
Proof.
  intros Hh [d Hm Hd He] Hsub.
  destruct (dict_get h d) as [e|] eqn:Hget.
  - apply dict_get_In in Hget as Hin.
    unfold entries_ok in He; rewrite Forall_forall in He.
    destruct (He _ Hin) as [[ts Hts] [v Hv]]; cbn [snd] in *.
    destruct (timestamp_of_getitem _ _ Hts) as (t & Ht & _).
    specialize (Hsub d Hm). unfold subtractable in Hsub.
    rewrite Forall_forall in Hsub.
    destruct (Hsub _ Hin t Ht) as [z Hz].
    rewrite (get_from_memory_aged _ _ _ h d e t (now - z) Hh Hm Hget Ht)
      by (unfold py_sub; now rewrite Hz).
    rewrite (data_of_getitem _ _ Hv).
    destruct (_ <=? _); eauto.
  - rewrite (get_from_memory_absent _ _ _ h d Hh Hm Hget); eauto.
Qed.

(** C9, as the code has it.  A key without an [encode] method, such
    as an [int], [None] or a [bytes], makes [add_to_memory] and
    [get_from_memory] raise [AttributeError] in [_hash_key], with the
    store untouched.  A key that is not a [str] and has an [encode]
    that returns a [bytes] is hashed as a [str] is.  A key that is a
    [str] without surrogate code points is hashed; with such a key,
    on a store that holds a mapping of entries that each have a
    numeric timestamp and a data field, [add_to_memory] returns when
    [max_memory_size] is not negative, and [get_from_memory] returns
    when the timestamps can be subtracted from a float. *)
Theorem keys_must_be_str (self : pmll) (now : Z) (key value : pyval) :
  (has_encode key = false ->
   _hash_key key = Raise AttributeError /\
   add_to_memory now key value self = (Raise AttributeError, self) /\
   get_from_memory now key self = (Raise AttributeError, self)) /\
  (forall b,
      key = PObject (Some (Return (PBytes b))) ->
      _hash_key key = Return (sha256_hexdigest b)) /\
  (forall s,
      key = PStr s -> encodable s ->
      returns (_hash_key key) /\
      (store_ok self ->
       (0 <= max_memory_size self ->
        returns (fst (add_to_memory now key value self))) /\
       ((forall d, memory self = PDict d -> subtractable d) ->
        returns (fst (get_from_memory now key self))))).
Proof.
  split; [|split].
  - intros Hkey. apply hash_key_no_encode in Hkey.
    split; [exact Hkey|].
    split;
      [now apply add_to_memory_bad_key | now apply get_from_memory_bad_key].
  - now intros b ->.
  - intros s -> Hs.
    destruct (hash_key_str s Hs) as (b & _ & Hh).
    split; [rewrite Hh; now eexists|].
    intros Hok; split.
    + intros Hcap.
      destruct (add_to_memory_keeps_ok now (PStr s) value self s Hok Hcap Hs)
        as (self' & -> & _).
      now exists tt.
    + intros Hsub.
      destruct (get_from_memory_runs now _ self _ Hh Hok Hsub)
        as (v & self' & ->).
      now exists v.
Qed.

(* ---------------------------------------------------------------- *)
(** *** What a get changes *)

(** A get leaves the store as it is, or it has found an expired entry
    under its digest, deleted it and returned [None]. *)
Lemma get_from_memory_cases (now : Z) (key : pyval) (self self' : pmll)
      (r : result pyval) :
  get_from_memory now key self = (r, self') ->
  self' = self \/
  exists h d e t age,
    _hash_key key = Return h /\
    memory self = PDict d /\
    dict_get h d = Some e /\
    py_getitem e (str "timestamp") = Return t /\
    py_sub now t = Return age /\
    age > memory_timeout self /\
    r = Return PNone /\
    self' = with_memory (PDict (dict_del h d)) self.
Proof.
  intros Hget.
  destruct (_hash_key key) as [h|x] eqn:Hh;
    [|rewrite (get_from_memory_bad_key _ _ _ x Hh) in Hget;
      injection Hget as _ <-; now left].
  destruct (memory self) as [| | | |s' |b |l |l |d|o] eqn:Hm.
  1-8,10: left; revert Hget; unfold get_from_memory; run_method;
    rewrite Hh, Hm; cbn [py_contains py_getitem];
    try destruct (is_substring h s'); try destruct (existsb _ l);
    now intros [= _ <-].
  rewrite (get_from_memory_step _ _ _ h d Hh Hm) in Hget.
  destruct (dict_get h d) as [e|] eqn:He;
    [|injection Hget as _ <-; now left].
  destruct (py_getitem e (str "timestamp")) as [t|] eqn:Ht;
    [|injection Hget as _ <-; now left].
  destruct (py_sub now t) as [age|] eqn:Hage;
    [|injection Hget as _ <-; now left].
  destruct (Z.leb_spec age (memory_timeout self)) as [Hle|Hgt];
    [injection Hget as _ <-; now left|].
  injection Hget as <- <-. right.
  exists h, d, e, t, age. repeat split; auto. lia.
Qed.

(** X1.  A get never touches the configuration, never adds an entry, takes
    out at most one, leaves the entries under every other digest as
    they are, and changes nothing at all unless it returns [None]. *)
Theorem get_from_memory_frame (now : Z) (key : pyval) (self self' : pmll)
        (r : result pyval) :
  get_from_memory now key self = (r, self') ->
  same_config self self' /\
  entries self - 1 <= entries self' <= entries self /\
  (forall h, _hash_key key <> Return h -> lookup h self' = lookup h self) /\
  (r <> Return PNone -> self' = self).
Proof.
  intros Hget.
  destruct (get_from_memory_cases _ _ _ _ _ Hget)
    as [->|(h & d & e & t & age & Hh & Hm & He & Ht & Hage & Hgt & -> & ->)].
  - repeat split; auto; lia.
  - assert (Hmem : dict_mem h d = true) by (unfold dict_mem; now rewrite He).
    repeat split; try reflexivity.
    + unfold entries; cbn [memory with_memory]; rewrite Hm.
      rewrite dict_len_del by auto; lia.
    + unfold entries; cbn [memory with_memory]; rewrite Hm.
      rewrite dict_len_del by auto; lia.
    + intros h' Hh'. unfold lookup; cbn [memory with_memory]; rewrite Hm.
      apply dict_get_del_other. congruence.
    + congruence.
Qed.

(** X2.  A second get for the same key at the same time gives what the
    first gave and changes nothing more. *)
Theorem get_from_memory_twice (now : Z) (key : pyval) (self self' : pmll)
        (r : result pyval) :
  (forall d, memory self = PDict d -> dict_ok d) ->
  get_from_memory now key self = (r, self') ->
  get_from_memory now key self' = (r, self').
Proof.
  intros Hok Hget.
  destruct (get_from_memory_cases _ _ _ _ _ Hget)
    as [->|(h & d & e & t & age & Hh & Hm & He & Ht & Hage & Hgt & -> & ->)];
    auto.
  apply (get_from_memory_absent now key _ h (dict_del h d)); auto.
  apply dict_get_del_same; auto.
Qed.

(* ---------------------------------------------------------------- *)
(** *** Puts that do not prune *)

Lemma add_to_memory_fits (now : Z) (key value : pyval) (self : pmll)
      (h : pystr) (d : dict) :
  _hash_key key = Return h ->
  memory self = PDict d ->
  dict_len (dict_set h (new_entry now value) d) <= max_memory_size self ->
  add_to_memory now key value self =
  (Return tt,
   with_memory (PDict (dict_set h (new_entry now value) d)) self).
Proof.
  intros Hh Hm Hfit.
  rewrite (add_to_memory_step _ _ _ _ h d Hh Hm); cbv zeta.
  now destruct (Z.gtb_spec (dict_len (dict_set h (new_entry now value) d))
                           (max_memory_size self)); [lia|].
Qed.

(** X3.  A put for a digest that is in a store within its capacity
    returns and leaves a store whose memory is the mapping written in
    place: the keys and their order stay, nothing is deleted, the
    entry under the digest is the new one and the others are as they
    were.  No entry needs a timestamp for that. *)
Theorem add_to_memory_overwrites (now : Z) (key value : pyval)
        (self : pmll) (h : pystr) (d : dict) :
  _hash_key key = Return h ->
  memory self = PDict d ->
  dict_mem h d = true ->
  dict_len d <= max_memory_size self ->
  exists self' d',
    add_to_memory now key value self = (Return tt, self') /\
    memory self' = PDict d' /\
    same_config self self' /\
    List.map fst d' = List.map fst d /\
    dict_get h d' = Some (new_entry now value) /\
    lookup h self' = Some (new_entry now value) /\
    entries self' = entries self /\
    forall h', h' <> h -> dict_get h' d' = dict_get h' d.
Proof.
  intros Hh Hm Hmem Hlen.
  exists (with_memory (PDict (dict_set h (new_entry now value) d)) self),
         (dict_set h (new_entry now value) d).
  split; [|split; [reflexivity|split; [now split|]]].
  - apply add_to_memory_fits; auto.
    rewrite dict_len_set, Hmem; auto.
  - unfold lookup, entries; cbn [memory with_memory]; rewrite Hm.
    split; [now apply dict_set_present|].
    split; [apply dict_get_set_same|].
    split; [apply dict_get_set_same|].
    split; [now rewrite dict_len_set, Hmem|].
    intros h' Hh'; now apply dict_get_set_other.
Qed.

(** X4.  A put that leaves the store within its capacity does not change
    what a get for a key with another digest returns or raises. *)
Theorem add_to_memory_keeps_reads (now now' : Z) (key key' value : pyval)
        (self : pmll) (h h' : pystr) (d : dict) :
  _hash_key key = Return h ->
  _hash_key key' = Return h' ->
  h' <> h ->
  memory self = PDict d ->
  dict_len (dict_set h (new_entry now value) d) <= max_memory_size self ->
  exists self',
    add_to_memory now key value self = (Return tt, self') /\
    fst (get_from_memory now' key' self') =
    fst (get_from_memory now' key' self).
Proof.
  intros Hh Hh' Hne Hm Hfit.
  eexists; split; [now apply add_to_memory_fits; eauto|].
  rewrite (get_from_memory_step
             now' key' (with_memory (PDict _) self) h' _ Hh' eq_refl).
  rewrite (get_from_memory_step now' key' self h' d Hh' Hm).
  rewrite dict_get_set_other by auto.
  cbn [memory_timeout with_memory].
  destruct (dict_get h' d) as [e|]; auto.
  destruct (py_getitem e (str "timestamp")) as [t|]; auto.
  destruct (py_sub now' t) as [age|]; auto.
  now destruct (age <=? memory_timeout self).
Qed.

(* ---------------------------------------------------------------- *)
(** *** How much a put deletes, and which of two entries of one age *)



(** X6.  A prune goes by age alone, and the age is what expiry goes by: when
    a put deletes an entry that had not expired at some time, nothing it
    keeps has expired at that time.  Entries that have expired go
    before any that has not. *)
Theorem eviction_takes_expired_first (now now' : Z) (key value : pyval)
        (self : pmll) (h : pystr) (d : dict) :
  _hash_key key = Return h ->
  memory self = PDict d ->
  dict_ok d ->
  timestamps_ok d ->
  0 <= max_memory_size self ->
  let d1 := dict_set h (new_entry now value) d in
  let gone := evicted (max_memory_size self) d1 in
  let kept := delete_all gone d1 in
  add_to_memory now key value self
  = (Return tt, with_memory (PDict kept) self) /\
  forall x y,
    In x gone -> In y kept ->
    now' - stamp x <= memory_timeout self ->
    now' - stamp y <= memory_timeout self.
Proof.
  intros Hh Hm Hd Hts Hcap d1 gone kept.
  split; [now apply add_to_memory_runs|].
  intros x y Hx Hy Hfresh.
  assert (Hle : stamp x <= stamp y).
  { apply (evicted_older (max_memory_size self) d1); auto.
    now apply dict_ok_set. }
  lia.
Qed.

Lemma insert_sorted_filter (ts : Z) (x : Z * item) (l : list (Z * item)) :
  filter (fun p => fst p =? ts) (insert_sorted x l) =
  if fst x =? ts
  then x :: filter (fun p => fst p =? ts) l
  else filter (fun p => fst p =? ts) l.
Proof.
  induction l as [|y l IH]; cbn [insert_sorted filter]; [reflexivity|].
  destruct (Z.leb_spec (fst x) (fst y)) as [Hxy|Hxy]; cbn [filter];
    [reflexivity|].
  rewrite IH.
  destruct (Z.eqb_spec (fst x) ts) as [Hx|Hx]; [|reflexivity].
  now destruct (Z.eqb_spec (fst y) ts) as [Hy|Hy]; [lia|].
Qed.

Lemma stable_sort_filter (ts : Z) (l : list (Z * item)) :
  filter (fun p => fst p =? ts) (stable_sort l) =
  filter (fun p => fst p =? ts) l.
Proof.
  induction l as [|x l IH]; cbn [stable_sort filter]; [reflexivity|].
  rewrite insert_sorted_filter, IH. reflexivity.
Qed.

Lemma filter_keyed (ts : Z) (l : list (Z * item)) :
  Forall (fun p => fst p = stamp (snd p)) l ->
  filter (stamped ts) (List.map snd l) =
  List.map snd (filter (fun p => fst p =? ts) l).
Proof.
  induction 1 as [|p l Hp Hl IH]; cbn [List.map filter]; [reflexivity|].
  unfold stamped at 1; rewrite <- Hp, IH.
  now destruct (fst p =? ts).
Qed.

Lemma by_stamp_keyed (d : dict) :
  Forall (fun p => fst p = stamp (snd p)) (by_stamp d).
Proof.
  unfold by_stamp; apply Forall_forall; intros p Hp.
  apply in_map_iff in Hp as (kv & <- & _); reflexivity.
Qed.

Lemma sorted_ties (d : dict) (ts : Z) :
  filter (stamped ts) (oldest_first d) = filter (stamped ts) d.
Proof.
  rewrite oldest_first_eq, filter_keyed.
  - rewrite stable_sort_filter, <- filter_keyed by apply by_stamp_keyed.
    now rewrite by_stamp_snd.
  - eapply Permutation_Forall;
      [symmetry; apply stable_sort_perm | apply by_stamp_keyed].
Qed.

Lemma before_filter {A : Type} (p : A -> bool) (x y : A) (l : list A) :
  before x y l -> p x = true -> p y = true -> before x y (filter p l).
Proof.
  intros (l1 & l2 & l3 & ->) Hx Hy.
  exists (filter p l1), (filter p l2), (filter p l3).
  rewrite filter_app; cbn [filter]; rewrite Hx.
  rewrite filter_app; cbn [filter]; now rewrite Hy.
Qed.

Lemma filter_before {A : Type} (p : A -> bool) (x y : A) (l : list A) :
  before x y (filter p l) -> before x y l.
Proof.
  induction l as [|a l IH]; cbn [filter].
  - intros (l1 & l2 & l3 & H). now destruct l1.
  - destruct (p a) eqn:Hp.
    + intros (l1 & l2 & l3 & H). destruct l1 as [|a' l1].
      * cbn [app] in H. injection H as <- Hf.
        assert (Hy : In y l).
        { apply (proj1 (filter_In p y l)). rewrite Hf.
          apply in_or_app; right; now left. }
        apply in_split in Hy as (m1 & m2 & ->).
        now exists [], m1, m2.
      * cbn [app] in H. injection H as <- Hf.
        destruct IH as (m1 & m2 & m3 & ->); [now exists l1, l2, l3|].
        now exists (a :: m1), m2, m3.
    + intros H. destruct (IH H) as (m1 & m2 & m3 & ->).
      now exists (a :: m1), m2, m3.
Qed.

(** What [sorted] deletes first: of two items, the later one is among
    the first [n] only when the earlier one is. *)
Lemma firstn_before (n : nat) (x y : item) (l : list item) :
  NoDup (List.map fst l) ->
  before x y l ->
  In (fst y) (List.map fst (firstn n l)) ->
  In x (firstn n l).
Proof.
  intros Hnd (l1 & l2 & l3 & ->) Hy.
  replace (l1 ++ x :: l2 ++ y :: l3) with ((l1 ++ x :: l2) ++ y :: l3) in *
    by (rewrite <- app_assoc; reflexivity).
  set (a := l1 ++ x :: l2) in *.
  rewrite firstn_app in Hy |- *.
  destruct (Nat.le_gt_cases n (List.length a)) as [Hn|Hn].
  - exfalso.
    replace (n - List.length a)%nat with 0%nat in Hy by lia.
    cbn [firstn] in Hy; rewrite app_nil_r in Hy.
    rewrite map_app in Hnd; cbn [List.map] in Hnd.
    apply NoDup_remove_2 in Hnd. apply Hnd, in_or_app; left.
    apply in_map_iff in Hy as (kv & Hkv & Hin).
    apply in_map_iff; exists kv; split; [exact Hkv|].
    rewrite <- (firstn_skipn n a). apply in_or_app; now left.
  - apply in_or_app; left. rewrite firstn_all2 by lia.
    unfold a; apply in_or_app; right; now left.
Qed.

(** X7.  Of two entries of one age, [sorted] in [_prune_memory] keeps
    the one the mapping holds first before the other, so that a put
    deletes it first: when the put has deleted the later one, it has
    deleted the earlier one too. *)
Theorem ties_keep_insertion_order (now : Z) (key value : pyval)
        (self : pmll) (h : pystr) (d : dict) (x y : item) :
  _hash_key key = Return h ->
  memory self = PDict d ->
  dict_ok d ->
  timestamps_ok d ->
  0 <= max_memory_size self ->
  before x y (dict_set h (new_entry now value) d) ->
  stamp x = stamp y ->
  exists sorted_memory self' d',
    sorted_by_timestamp (dict_set h (new_entry now value) d)
    = Return sorted_memory /\
    before x y sorted_memory /\
    add_to_memory now key value self = (Return tt, self') /\
    memory self' = PDict d' /\
    (lookup (fst y) self' = None -> lookup (fst x) self' = None).
Proof.
  intros Hh Hm Hd Hts Hcap Hxy Hstamp.
  set (d1 := dict_set h (new_entry now value) d) in *.
  assert (Hts1 : timestamps_ok d1).
  { unfold timestamps_ok, d1; rewrite Forall_forall; intros kv Hkv.
    apply dict_set_In in Hkv as [->|Hkv]; [now exists now|].
    unfold timestamps_ok in Hts; rewrite Forall_forall in Hts; auto. }
  assert (Hd1 : dict_ok d1) by now apply dict_ok_set.
  assert (Hsorted : before x y (oldest_first d1)).
  { apply (filter_before (stamped (stamp y))).
    rewrite sorted_ties. apply before_filter; auto.
    - unfold stamped; rewrite Hstamp; apply Z.eqb_refl.
    - unfold stamped; apply Z.eqb_refl. }
  exists (oldest_first d1),
         (with_memory
            (PDict (delete_all (evicted (max_memory_size self) d1) d1)) self),
         (delete_all (evicted (max_memory_size self) d1) d1).
  split; [now apply sorted_by_timestamp_ok|].
  split; [exact Hsorted|].
  split; [now apply add_to_memory_runs|].
  split; [reflexivity|].
  unfold lookup; cbn [memory with_memory]. intros Hgone.
  assert (Hy : In y d1).
  { destruct Hxy as (l1 & l2 & l3 & ->).
    apply in_or_app; right; right. apply in_or_app; right; now left. }
  assert (Hvictim : In (fst y)
                       (List.map fst (evicted (max_memory_size self) d1))).
  { destruct (in_dec (list_eq_dec N.eq_dec) (fst y)
                     (List.map fst (evicted (max_memory_size self) d1)))
      as [Hin|Hout]; [exact Hin|].
    rewrite (delete_all_get_other _ _ d1 Hout) in Hgone.
    destruct y as [ky vy]; cbn [fst] in *.
    rewrite (In_dict_get ky vy d1 Hd1 Hy) in Hgone. discriminate. }
  apply delete_all_get_victim; [exact Hd1|].
  apply in_map. unfold evicted in *.
  apply (firstn_before _ x y); auto.
  unfold dict_ok in Hd1.
  eapply Permutation_NoDup; [|exact Hd1].
  apply Permutation_map, Permutation_sym, sorted_items_perm.
Qed.

(* ---------------------------------------------------------------- *)
(** *** A put that fails half way *)

Lemma dict_set_keeps (h k : pystr) (v e : pyval) (d : dict) :
  k <> h -> In (k, e) d -> In (k, e) (dict_set h v d).
Proof.
  intros Hk; induction d as [|[k' v'] d IH]; cbn [dict_set]; [intros []|].
  destruct (pystr_eqb_spec h k') as [->|Hh]; intros [E|Hin].
  - injection E as -> _. congruence.
  - now right.
  - now left.
  - right; auto.
Qed.

Lemma decorate_raises (items : list item) (k : pystr) (e : pyval) :
  In (k, e) items -> lacks_timestamp e = true ->
  exists x, decorate items = Raise x /\ (x = KeyError \/ x = TypeError).
Proof.
  intros Hin Hlack; induction items as [|x r IH]; [destruct Hin|].
  cbn [decorate].
  destruct (timestamp_key x) as [t|y] eqn:Hx.
  - destruct Hin as [->|Hin].
    + destruct (lacks_timestamp_raises e Hlack) as [y Hy].
      unfold timestamp_key in Hx; cbn [snd] in Hx. congruence.
    + destruct (IH Hin) as (y & -> & Hy). now exists y.
  - exists y; split; [reflexivity|].
    unfold timestamp_key, py_getitem in Hx.
    destruct (snd x) as [| | | | | | | |f|]; try (right; congruence).
    destruct (dict_get (str "timestamp") f); [discriminate|left; congruence].
Qed.

(** X8.  A put is not all or nothing.  When the write pushes the count
    over [max_memory_size] and some other entry has no ["timestamp"]
    field, the put raises [KeyError] or [TypeError] out of [sorted],
    and leaves a store whose memory is the mapping with the new entry
    written and nothing deleted, over its capacity. *)
Theorem add_to_memory_fails_after_write (now : Z) (key value : pyval)
        (self : pmll) (h k : pystr) (d : dict) (e : pyval) :
  _hash_key key = Return h ->
  memory self = PDict d ->
  In (k, e) d ->
  k <> h ->
  lacks_timestamp e = true ->
  dict_len (dict_set h (new_entry now value) d) > max_memory_size self ->
  exists x self',
    add_to_memory now key value self = (Raise x, self') /\
    (x = KeyError \/ x = TypeError) /\
    memory self' = PDict (dict_set h (new_entry now value) d) /\
    same_config self self' /\
    lookup h self' = Some (new_entry now value) /\
    entries self' > max_memory_size self'.
Proof.
  intros Hh Hm Hin Hk Hlack Hover.
  set (d1 := dict_set h (new_entry now value) d) in *.
  destruct (decorate_raises d1 k e) as (x & Hx & Hwhich); auto.
  { now apply dict_set_keeps. }
  exists x, (with_memory (PDict d1) self).
  split; [|split; [exact Hwhich|]].
  - rewrite (add_to_memory_step _ _ _ _ h d Hh Hm); cbv zeta; fold d1.
    destruct (Z.gtb_spec (dict_len d1) (max_memory_size self)); [|lia].
    rewrite (prune_memory_step (with_memory (PDict d1) self) d1 eq_refl).
    unfold sorted_by_timestamp; now rewrite Hx.
  - unfold lookup, entries; cbn [memory with_memory max_memory_size].
    split; [reflexivity|]. split; [now split|].
    split; [apply dict_get_set_same | exact Hover].
Qed.

(* ---------------------------------------------------------------- *)
(** *** Runs of puts and gets *)

Lemma not_after_later (t t' : Z) (d : dict) :
  t <= t' -> not_after t d -> not_after t' d.
Proof.
  intros Ht; unfold not_after; apply Forall_impl.
  intros kv H ts Hts; specialize (H ts Hts); lia.
Qed.

Lemma not_after_subset (t : Z) (d d' : dict) :
  (forall kv, In kv d' -> In kv d) -> not_after t d -> not_after t d'.
Proof.
  unfold not_after; rewrite !Forall_forall; intros Hsub H kv Hkv.
  apply H, Hsub, Hkv.
Qed.

Lemma entries_ok_subset (d d' : dict) :
  (forall kv, In kv d' -> In kv d) -> entries_ok d -> entries_ok d'.
Proof.
  unfold entries_ok; rewrite !Forall_forall; intros Hsub H kv Hkv.
  apply H, Hsub, Hkv.
Qed.

Lemma not_after_set (t now : Z) (h : pystr) (value : pyval) (d : dict) :
  t <= now -> not_after t d ->
  not_after now (dict_set h (new_entry now value) d).
Proof.
  intros Ht Hd. apply (not_after_later t now) in Hd; auto.
  unfold not_after in *; rewrite Forall_forall in Hd.
  apply Forall_forall; intros kv Hkv.
  apply dict_set_In in Hkv as [->|Hkv].
  - intros ts Hts. change (Some now = Some ts) in Hts.
    injection Hts as <-. lia.
  - now apply Hd.
Qed.

Lemma store_sound_capacity (t : Z) (self : pmll) :
  store_sound t self -> 0 <= max_memory_size self.
Proof.
  intros [d _ _ _ _ Hlen]. unfold dict_len in Hlen; lia.
Qed.

Lemma subtractable_subset (d d' : dict) :
  (forall kv, In kv d' -> In kv d) -> subtractable d -> subtractable d'.
Proof.
  unfold subtractable; rewrite !Forall_forall; intros Hsub H kv Hkv.
  apply H, Hsub, Hkv.
Qed.

Lemma subtractable_set (h : pystr) (now : Z) (value : pyval) (d : dict) :
  subtractable d -> subtractable (dict_set h (new_entry now value) d).
Proof.
  unfold subtractable; rewrite !Forall_forall; intros Hd kv Hkv.
  apply dict_set_In in Hkv as [->|Hkv]; [|now apply Hd].
  cbn [snd]; rewrite new_entry_timestamp. intros t [= <-].
  now exists now.
Qed.

Lemma add_to_memory_sound (t now : Z) (s : pystr) (value : pyval)
      (self : pmll) :
  store_sound t self ->
  (forall d, memory self = PDict d -> subtractable d) ->
  t <= now -> encodable s ->
  exists self',
    add_to_memory now (PStr s) value self = (Return tt, self') /\
    store_sound now self' /\
    (forall d, memory self' = PDict d -> subtractable d) /\
    same_config self self'.
Proof.
  intros Hsound Hsub Ht Hs.
  pose proof (store_sound_capacity _ _ Hsound) as Hcap.
  destruct Hsound as [d Hm Hd He Hna Hlen].
  destruct (hash_key_str s Hs) as (b & _ & Hh).
  pose proof (add_to_memory_runs now (PStr s) value self _ d Hh Hm
                (entries_timestamps _ He) Hcap) as Hrun.
  cbv zeta in Hrun. eexists; split; [exact Hrun|].
  split; [|split; [|now split]].
  - apply add_to_memory_returned in Hrun
      as (h' & d0 & d' & Hh' & Hm0 & Hm' & Hlen').
    cbn [memory with_memory] in Hm'.
    econstructor; [reflexivity| | | |].
    + apply delete_all_ok, dict_ok_set, Hd.
    + apply entries_ok_delete_all, entries_ok_set, He.
    + eapply not_after_subset; [apply delete_all_In|].
      eapply not_after_set; eauto.
    + injection Hm' as Hd'. rewrite Hd'. cbn [max_memory_size with_memory].
      rewrite Hlen'. lia.
  - cbn [memory with_memory]. intros d' [= <-].
    eapply subtractable_subset; [apply delete_all_In|].
    apply subtractable_set, (Hsub d Hm).
Qed.

Lemma get_from_memory_sound (t now : Z) (s : pystr) (self : pmll) :
  store_sound t self ->
  (forall d, memory self = PDict d -> subtractable d) ->
  t <= now -> encodable s ->
  exists v self',
    get_from_memory now (PStr s) self = (Return v, self') /\
    store_sound now self' /\
    (forall d, memory self' = PDict d -> subtractable d) /\
    same_config self self'.
Proof.
  intros [d Hm Hd He Hna Hlen] Hsub Ht Hs.
  destruct (hash_key_str s Hs) as (b & _ & Hh).
  destruct (get_from_memory_runs now (PStr s) self _ Hh
              (store_ok_intro self d Hm Hd He) Hsub) as (v & self' & Hget).
  exists v, self'; split; [exact Hget|].
  apply (not_after_later t now) in Hna; auto.
  destruct (get_from_memory_cases _ _ _ _ _ Hget)
    as [->|(h & d0 & e & t0 & age & _ & Hm0 & He0 & _ & _ & _ & _ & ->)].
  - split; [econstructor; eauto | split; [exact Hsub | now split]].
  - assert (d0 = d) by congruence; subst d0.
    split; [|split; [|now split]].
    + econstructor; [reflexivity| | | |].
      * now apply dict_ok_del.
      * eapply entries_ok_subset; [apply dict_del_In|]; auto.
      * eapply not_after_subset; [apply dict_del_In|]; auto.
      * cbn [max_memory_size with_memory].
        rewrite dict_len_del by (unfold dict_mem; now rewrite He0). lia.
    + cbn [memory with_memory]. intros d' [= <-].
      eapply subtractable_subset; [apply dict_del_In|]. now apply Hsub.
Qed.

Lemma run_sound (ops : list op) :
  forall (t : Z) (self : pmll),
    store_sound t self ->
    (forall d, memory self = PDict d -> subtractable d) ->
    steady t ops -> Forall str_op ops ->
    exists self',
      run ops self = (Return tt, self') /\
      store_sound (last_time t ops) self' /\
      same_config self self'.
Proof.
  induction ops as [|o ops IH]; intros t self Hsound Hsub Hsteady Hkeys.
  - exists self; repeat split; auto.
  - destruct Hsteady as [Ht Hsteady].
    inversion Hkeys as [|? ? (s & Hkey & Hs) Hrest]; subst.
    destruct o as [now key value|now key]; cbn [op_time op_key] in *;
      subst key; cbn [run last_time op_time]; unfold bind.
    + destruct (add_to_memory_sound t now s value self Hsound Hsub Ht Hs)
        as (mid & -> & Hmid & Hsub' & Hc1 & Hc2).
      destruct (IH now mid Hmid Hsub' Hsteady Hrest)
        as (self' & Hrun & Hs' & Hc3 & Hc4).
      exists self'; repeat split; auto; congruence.
    + destruct (get_from_memory_sound t now s self Hsound Hsub Ht Hs)
        as (v & mid & -> & Hmid & Hsub' & Hc1 & Hc2).
      destruct (IH now mid Hmid Hsub' Hsteady Hrest)
        as (self' & Hrun & Hs' & Hc3 & Hc4).
      exists self'; repeat split; auto; congruence.
Qed.

Lemma init_sound (t timeout size : Z) :
  0 <= size -> store_sound t (__init__ timeout size).
Proof.
  intros Hsize. apply (store_sound_intro _ _ []); try constructor.
  exact Hsize.
Qed.

Lemma init_subtractable (timeout size : Z) :
  forall d, memory (__init__ timeout size) = PDict d -> subtractable d.
Proof. intros d [= <-]; constructor. Qed.

(** X9.  On an object made by [__init__] with a capacity that is not
    negative, no call of a run of puts and gets raises, as long as the
    clock does not go back and the keys are strings UTF-8 can encode;
    and the run leaves a mapping with distinct keys, at most
    [max_memory_size] entries, each with a numeric timestamp not after
    the last time read and a data field. *)
Theorem run_from_init_never_raises (timeout size t : Z) (ops : list op) :
  0 <= size ->
  steady t ops ->
  Forall str_op ops ->
  exists self',
    run ops (__init__ timeout size) = (Return tt, self') /\
    store_sound (last_time t ops) self' /\
    memory_timeout self' = timeout /\
    max_memory_size self' = size.
Proof.
  intros Hsize Hsteady Hkeys.
  destruct (run_sound ops t (__init__ timeout size)
              (init_sound t timeout size Hsize)
              (init_subtractable timeout size) Hsteady Hkeys)
    as (self' & Hrun & Hsound & Hc1 & Hc2).
  exists self'; repeat split; auto.
Qed.

(** X10.  What was put is read back: after any such run on an object made
    with room for at least one entry, a put returns, and a get for the
    same key within [memory_timeout] of the put returns the value and
    leaves the store as the put left it. *)
Theorem read_your_writes (timeout size t now now' : Z) (ops : list op)
        (s : pystr) (value : pyval) :
  1 <= size ->
  steady t ops ->
  Forall str_op ops ->
  last_time t ops <= now ->
  encodable s ->
  now' - now <= timeout ->
  exists mid self',
    run ops (__init__ timeout size) = (Return tt, mid) /\
    add_to_memory now (PStr s) value mid = (Return tt, self') /\
    get_from_memory now' (PStr s) self' = (Return value, self').
Proof.
  intros Hsize Hsteady Hkeys Hlast Hs Hage.
  destruct (run_sound ops t (__init__ timeout size)) as
    (mid & Hrun & [d Hm Hd He Hna Hlen] & Hc1 & Hc2); auto.
  { apply init_sound; lia. }
  { apply init_subtractable. }
  cbn [max_memory_size memory_timeout __init__] in Hc1, Hc2.
  destruct (hash_key_str s Hs) as (b & _ & Hh).
  pose proof (entries_timestamps _ He) as Hts.
  exists mid; eexists; split; [exact Hrun|]. split.
  - apply (add_to_memory_runs now (PStr s) value mid _ d Hh Hm Hts). lia.
  - eapply get_from_memory_fresh; eauto; [reflexivity| |].
    + apply new_entry_survives; auto; try lia.
      now apply (not_after_later (last_time t ops)).
    + cbn [memory_timeout with_memory]. lia.
Qed.

(* ---------------------------------------------------------------- *)
(** *** Files *)

(** X11.  [load_memory] never lets [FileNotFoundError] out and never
    touches the configuration.  When it returns, the memory is the
    empty mapping where [open] raised [FileNotFoundError], and the
    document where the file holds one; when it raises, with the
    exception of [open] or with [JSONDecodeError] for a text that is
    not JSON, the object is as it was. *)
Theorem load_memory_outcomes (filename : pystr) (fs : filesystem)
        (self self' : pmll) (r : result unit) :
  load_memory filename fs self = (r, self') ->
  same_config self self' /\
  r <> Raise FileNotFoundError /\
  match r with
  | Return _ =>
      (open_for_reading (fs filename) = Raise FileNotFoundError /\
       memory self' = PDict []) \/
      (exists doc,
          open_for_reading (fs filename) = Return (Json doc) /\
          memory self' = doc)
  | Raise e =>
      self' = self /\
      (open_for_reading (fs filename) = Raise e \/
       (open_for_reading (fs filename) = Return Garbage /\
        e = JSONDecodeError))
  end.
Proof.
  unfold load_memory, open_and_load, same_config.
  destruct (open_for_reading (fs filename)) as [[|doc]|e];
    cbn [json_load set_memory]; [| |destruct e];
    intros [= <- <-]; cbn [max_memory_size memory_timeout memory with_memory];
    repeat split; try discriminate; eauto.
Qed.



(** X14.  [load_memory] does not prune: it can leave more entries than
    [max_memory_size].  The next put then deletes the whole excess. *)
Theorem load_leaves_excess_to_next_add (filename : pystr) (fs : filesystem)
        (self : pmll) (doc : dict) (now : Z) (s : pystr) (value : pyval) :
  fs filename = Data (Json (PDict doc)) ->
  timestamps_ok doc ->
  0 <= max_memory_size self ->
  encodable s ->
  exists loaded self',
    load_memory filename fs self = (Return tt, loaded) /\
    entries loaded = dict_len doc /\
    add_to_memory now (PStr s) value loaded = (Return tt, self') /\
    entries self' <= max_memory_size self /\
    (max_memory_size self <= dict_len doc ->
     entries self' = max_memory_size self).
Proof.
  intros Hf Hts Hcap Hs.
  destruct (hash_key_str s Hs) as (b & _ & Hh).
  exists (with_memory (PDict doc) self).
  pose proof (add_to_memory_runs now (PStr s) value
                (with_memory (PDict doc) self) _ doc Hh eq_refl Hts Hcap)
    as Hrun; cbv zeta in Hrun.
  eexists; split; [unfold load_memory; now rewrite Hf|].
  split; [reflexivity|]. split; [exact Hrun|].
  apply add_to_memory_returned in Hrun
    as (h' & d0 & d' & Hh' & Hm0 & Hm' & Hlen).
  cbn [memory with_memory max_memory_size] in *.
  injection Hm0 as <-. injection Hm' as Hd'.
  assert (h' = sha256_hexdigest b) by congruence; subst h'.
  unfold entries; cbn [memory with_memory]. rewrite Hd', Hlen.
  pose proof (dict_len_set (sha256_hexdigest b) (new_entry now value) doc)
    as Hl.
  destruct (dict_mem (sha256_hexdigest b) doc); split; lia.
Qed.

(** X15.  After a document that is not a mapping has been loaded, every put
    raises [TypeError] and leaves the memory as loaded. *)
Theorem add_to_memory_after_non_mapping (filename : pystr)
        (fs : filesystem) (self : pmll) (doc : pyval)
        (now : Z) (key value : pyval) (h : pystr) :
  fs filename = Data (Json doc) ->
  (forall d, doc <> PDict d) ->
  _hash_key key = Return h ->
  load_memory filename fs self = (Return tt, with_memory doc self) /\
  add_to_memory now key value (with_memory doc self)
  = (Raise TypeError, with_memory doc self).
Proof.
  intros Hf Hdoc Hh. split; [unfold load_memory; now rewrite Hf|].
  now apply (add_to_memory_not_dict _ _ _ _ h).
Qed.

(* ---------------------------------------------------------------- *)
(** *** Capacities of zero and below *)

Lemma dict_len_zero (d : dict) : dict_len d = 0 -> d = [].
Proof.
  destruct d; [reflexivity|]. unfold dict_len; cbn [List.length]; lia.
Qed.

(** X16.  With [max_memory_size = 0] a put returns and leaves the mapping
    empty, so every get that follows returns [None]. *)
Theorem capacity_zero_keeps_nothing (now now' : Z) (key key' value : pyval)
        (self : pmll) (h h' : pystr) (d : dict) :
  _hash_key key = Return h ->
  _hash_key key' = Return h' ->
  memory self = PDict d ->
  timestamps_ok d ->
  max_memory_size self = 0 ->
  add_to_memory now key value self
  = (Return tt, with_memory (PDict []) self) /\
  get_from_memory now' key' (with_memory (PDict []) self)
  = (Return PNone, with_memory (PDict []) self).
Proof.
  intros Hh Hh' Hm Hts Hcap. split.
  - pose proof (add_to_memory_runs now key value self h d Hh Hm Hts)
      as Hrun; cbv zeta in Hrun.
    rewrite Hrun by lia.
    apply add_to_memory_returned in Hrun
      as (h0 & d0 & d' & _ & _ & Hm' & Hlen); [|lia].
    cbn [memory with_memory] in Hm'. injection Hm' as Hd'.
    rewrite Hd'. rewrite (dict_len_zero d'); [reflexivity|].
    rewrite Hlen, Hcap. unfold dict_len; lia.
  - now apply (get_from_memory_absent now' key' _ h' []).
Qed.



(* ---------------------------------------------------------------- *)
(** *** The script *)


(* ---------------------------------------------------------------- *)
(** *** Where the general statements stop *)

(** With [max_memory_size = 0] a put deletes the entry it has just
    written, whatever the digest. *)
Lemma capacity_zero_forgets (timeout now now' : Z) (key value : pyval)
      (h : pystr) :
  _hash_key key = Return h ->
  add_to_memory now key value (__init__ timeout 0) =
  (Return tt, __init__ timeout 0) /\
  get_from_memory now' key (__init__ timeout 0) =
  (Return PNone, __init__ timeout 0).
Proof.
  intros Hh; split.
  - rewrite (add_to_memory_runs now key value (__init__ timeout 0) h []
               Hh eq_refl); [|constructor|cbn; lia].
    cbn [dict_set max_memory_size __init__].
    unfold evicted, oldest_first, by_stamp.
    change (Z.to_nat (dict_len [(h, new_entry now value)] - 0)) with 1%nat.
    cbn [List.map stable_sort insert_sorted snd firstn delete_all fold_left
         fst dict_del].
    now rewrite pystr_eqb_refl.
  - now apply (get_from_memory_absent now' key (__init__ timeout 0) h []).
Qed.

(** A stored [None] that is found and a key that is not there give the
    same result, whatever the digest. *)
Lemma stored_none_reads_as_absent (now ts : Z) (key : pyval)
      (self other : pmll) (h : pystr) (d d0 : dict) :
  _hash_key key = Return h ->
  memory self = PDict d ->
  dict_get h d = Some (new_entry ts PNone) ->
  now - ts <= memory_timeout self ->
  memory other = PDict d0 ->
  dict_get h d0 = None ->
  fst (get_from_memory now key self) = fst (get_from_memory now key other).
Proof.
  intros Hh Hm Hget Hage Hm0 Hget0.
  rewrite (get_from_memory_fresh now ts key PNone self h d Hh Hm Hget Hage).
  now rewrite (get_from_memory_absent now key other h d0 Hh Hm0 Hget0).
Qed.

(** With a negative [max_memory_size] a put empties the store and then
    pops from the empty list. *)
Lemma negative_capacity_raises (timeout now : Z) (key value : pyval)
      (h : pystr) :
  _hash_key key = Return h ->
  add_to_memory now key value (__init__ timeout (-1)) =
  (Raise IndexError, __init__ timeout (-1)).
Proof.
  intros Hh.
  set (self := __init__ timeout (-1)).
  set (d1 := [(h, new_entry now value)]).
  rewrite (add_to_memory_step now key value self h [] Hh eq_refl).
  cbv zeta; cbn [dict_set]; fold d1.
  change (dict_len d1 >? max_memory_size self) with true; cbv iota.
  rewrite (prune_memory_step (with_memory (PDict d1) self) d1 eq_refl).
  rewrite sorted_by_timestamp_ok by (repeat constructor; now exists now).
  unfold by_stamp, d1; cbn [List.map stable_sort insert_sorted snd]; fold d1.
  rewrite (prune_loop_step _ (with_memory (PDict d1) self) d1 eq_refl).
  change (dict_len d1 >? max_memory_size (with_memory (PDict d1) self))
    with true; cbv iota.
  unfold dict_mem, d1; cbn [dict_get dict_del]; rewrite pystr_eqb_refl.
  now rewrite (prune_loop_step _ (with_memory (PDict []) self) [] eq_refl).
Qed.

End Methods.

(* ================================================================== *)
(** ** The methods run on the examples *)

(** [str.encode()] on one, two, three and four bytes. *)
Example utf8_of_ascii_latin_euro_emoji :
  str_encode [97; 233; 8364; 128512]%N =
  Return [x61; xc3; xa9; xe2; x82; xac; xf0; x9f; x98; x80].
Proof.
  reflexivity.
Qed.

(** C1 as stated fails for a store of capacity 0: the put returns, having
    deleted the entry it wrote, and the get that follows at once returns
    [None], not the value. *)
Lemma get_after_add_capacity_zero :
  add_to_memory byte_digest no_other_order 0 user_123 hello (__init__ 300 0)
  = (Return tt, __init__ 300 0) /\
  get_from_memory byte_digest 0 user_123 (__init__ 300 0)
  = (Return PNone, __init__ 300 0) /\
  hello <> PNone.
Proof.
  split; [reflexivity|]. split; [reflexivity|discriminate].
Qed.

(** The other ways a put is not read back: a negative timeout, an
    entry stamped after the put, and a store over its capacity whose
    entries are as young as the put. *)
Example negative_timeout_expires_at_once :
  add_to_memory byte_digest no_other_order 0 user_123 hello (__init__ (-1) 8)
  = (Return tt,
     with_memory (PDict [(str "user_123", new_entry 0 hello)])
                 (__init__ (-1) 8)) /\
  get_from_memory byte_digest 0 user_123
    (with_memory (PDict [(str "user_123", new_entry 0 hello)])
                 (__init__ (-1) 8))
  = (Return PNone, __init__ (-1) 8).
Proof.
  split; reflexivity.
Qed.

Example future_entry_outlives_put :
  add_to_memory byte_digest no_other_order 10 user_123 hello future_store
  = (Return tt, future_store) /\
  get_from_memory byte_digest 10 user_123 future_store
  = (Return PNone, future_store).
Proof.
  split; reflexivity.
Qed.

Example crowded_store_drops_put :
  add_to_memory byte_digest no_other_order 10 user_123 hello crowded_store
  = (Return tt,
     with_memory (PDict [(str "old", new_entry 10 PNone)]) crowded_store) /\
  get_from_memory byte_digest 10 user_123
    (with_memory (PDict [(str "old", new_entry 10 PNone)]) crowded_store)
  = (Return PNone,
     with_memory (PDict [(str "old", new_entry 10 PNone)]) crowded_store).
Proof.
  split; reflexivity.
Qed.

(** A [str] key on a store with a negative capacity, and on a store
    loaded from a document without timestamps. *)
Example negative_capacity_put_raises :
  add_to_memory byte_digest no_other_order 0 user_123 hello (__init__ 300 (-1))
  = (Raise IndexError, __init__ 300 (-1)).
Proof.
  reflexivity.
Qed.

Example bare_entry_get_raises :
  get_from_memory byte_digest 0 user_123
    (with_memory bare_document default_pmll)
  = (Raise KeyError, with_memory bare_document default_pmll).
Proof.
  reflexivity.
Qed.

(** C3 as stated fails for a stored [None]: the get that finds it and
    the get on a store that never held the key return the same thing. *)
Lemma stored_none_looks_absent :
  add_to_memory byte_digest no_other_order 0 user_123 PNone default_pmll
  = (Return tt,
     with_memory (PDict [(str "user_123", new_entry 0 PNone)]) default_pmll)
  /\
  fst (get_from_memory byte_digest 0 user_123
         (with_memory (PDict [(str "user_123", new_entry 0 PNone)])
                      default_pmll))
  = fst (get_from_memory byte_digest 0 user_123 default_pmll).
Proof.
  split; reflexivity.
Qed.

(** C9 as stated fails for a [str] key that UTF-8 cannot encode: both
    methods raise [UnicodeEncodeError] in [_hash_key]. *)
Lemma surrogate_key_raises :
  add_to_memory byte_digest no_other_order 0 lone_surrogate hello default_pmll
  = (Raise UnicodeEncodeError, default_pmll) /\
  get_from_memory byte_digest 0 lone_surrogate default_pmll
  = (Raise UnicodeEncodeError, default_pmll).
Proof.
  split; reflexivity.
Qed.


(** The other values that do not come back as they were saved: a
    [str] with a surrogate pair comes back with one code point for
    the two, and an [int] of more digits than the interpreter prints
    makes [json.dump] raise [ValueError]. *)
Example surrogate_pair_comes_back_merged :
  jsonify 4300 (PStr [55357; 56832]%N) = Return (PStr [128512%N]).
Proof.
  reflexivity.
Qed.

Example long_int_is_refused :
  jsonify 4300 (PInt (10 ^ 4300)) = Raise ValueError /\
  jsonify 4300 (PInt (10 ^ 4300 - 1)) = Return (PInt (10 ^ 4300 - 1)).
Proof.
  split; vm_compute; reflexivity.
Qed.

(** C8 as stated fails for a path that goes through a regular file:
    nothing is there under that path, [open] raises
    [NotADirectoryError], [load_memory] lets it out and the store
    keeps its entry. *)
Lemma load_under_a_file_raises :
  load_memory (str "notes.txt/memory.json") under_a_file example_store
  = (Raise NotADirectoryError, example_store) /\
  memory example_store <> PDict [].
Proof.
  split; [reflexivity | discriminate].
Qed.

(** An [int] below 2^53 is the float it is subtracted as; 2^53 + 1 is
    not; and 10^400 is no float at all. *)
Example float_of_int_cases :
  float_of_int (2 ^ 53 - 1) = Return (2 ^ 53 - 1) /\
  float_of_int (2 ^ 53 + 1) = Return (2 ^ 53) /\
  float_of_int (2 ^ 53 + 3) = Return (2 ^ 53 + 4) /\
  float_of_int (2 ^ 1024 - 2 ^ 970 - 1) = Return (2 ^ 1024 - 2 ^ 971) /\
  float_of_int (2 ^ 1024 - 2 ^ 970) = Raise OverflowError /\
  float_of_int (10 ^ 400) = Raise OverflowError.
Proof.
  repeat split; vm_compute; reflexivity.
Qed.

(** A store of well-formed entries on which a get for a [str] key
    raises: the timestamp is an [int] past every float. *)
Example huge_stamp_get_raises :
  store_ok huge_stamp_store /\
  get_from_memory byte_digest 0 user_123 huge_stamp_store
  = (Raise OverflowError, huge_stamp_store) /\
  returns (fst (add_to_memory byte_digest no_other_order 0
                  (PStr (str "b")) hello huge_stamp_store)).
Proof.
  split; [|split].
  - eapply store_ok_intro; [reflexivity| |].
    + unfold dict_ok. simpl. constructor; [intros []|constructor].
    + repeat constructor; [exists (10 ^ 400)|exists PNone]; reflexivity.
  - vm_compute. reflexivity.
  - exists tt. vm_compute. reflexivity.
Qed.

(** A key that is no [str] and is hashed: its [encode] returns the
    bytes of ["user_123"], and it reads the entry of the example
    store. *)
Example encoding_object_is_hashed :
  _hash_key byte_digest encoding_object = Return (str "user_123") /\
  get_from_memory byte_digest 0 encoding_object example_store
  = (Return hello, example_store).
Proof.
  split; reflexivity.
Qed.

(** A put into a full store of capacity 1 deletes the old entry, and
    the new one is read back. *)
Lemma get_after_add_witness :
  exists self',
    add_to_memory byte_digest no_other_order 10 user_123 hello full_store
    = (Return tt, self') /\
    get_from_memory byte_digest 10 user_123 self' = (Return hello, self').
Proof.
  apply (get_after_add byte_digest no_other_order full_store 10 10
           (str "user_123") hello [(str "old", new_entry 5 PNone)]).
  - repeat constructor.
  - reflexivity.
  - repeat constructor. exists 5. reflexivity.
  - constructor; [|constructor]. intros ts [= <-]. lia.
  - vm_compute. discriminate.
  - vm_compute. discriminate.
  - vm_compute. discriminate.
Defined.

(** Three puts into an empty store of capacity 2 all return and leave
    no more than 2 entries; so does the third after the first two. *)
Lemma entries_within_capacity_witness :
  (exists self',
      add_all byte_digest no_other_order three_calls (__init__ 300 2)
      = (Return tt, self') /\
      store_ok self' /\
      (three_calls <> [] -> entries self' <= 2)) /\
  (exists h d d',
      _hash_key byte_digest (PStr (str "c")) = Return h /\
      memory (with_memory
                (PDict [(str "a", new_entry 1 (PNum 10));
                        (str "b", new_entry 2 (PNum 20))])
                (__init__ 300 2)) = PDict d /\
      memory (with_memory
                (PDict [(str "b", new_entry 2 (PNum 20));
                        (str "c", new_entry 3 (PNum 30))])
                (__init__ 300 2)) = PDict d' /\
      dict_len d' <= 2 /\
      (dict_len (dict_set h (new_entry 3 (PNum 30)) d) > 2 ->
       dict_len d' = 2)).
Proof.
  split.
  - apply (proj2 (entries_within_capacity byte_digest no_other_order
                    (__init__ 300 2) three_calls)).
    + apply (store_ok_intro _ []); [reflexivity|constructor|constructor].
    + vm_compute. discriminate.
    + repeat constructor; eexists; (split; [reflexivity|repeat constructor]).
  - apply (proj1 (entries_within_capacity byte_digest no_other_order
                    (__init__ 300 2)
                    [(1, PStr (str "a"), PNum 10);
                     (2, PStr (str "b"), PNum 20)])
             3 (PStr (str "c")) (PNum 30)); reflexivity.
Defined.

(** The entry of the example store is found 100 ticks after it was
    written, a store without the key answers [None], and what the
    get returns comes from that entry. *)
Lemma found_unless_none_witness :
  fst (get_from_memory byte_digest 100 user_123 example_store)
  = Return hello /\
  fst (get_from_memory byte_digest 100 user_123 default_pmll)
  = Return PNone /\
  (fst (get_from_memory byte_digest 700 user_123 example_store)
   = Return hello \/
   fst (get_from_memory byte_digest 700 user_123 example_store)
   = Return PNone) /\
  exists h d e t,
    _hash_key byte_digest user_123 = Return h /\
    memory example_store = PDict d /\
    dict_get h d = Some e /\
    py_getitem e (str "timestamp") = Return t /\
    returns (py_sub 100 t) /\
    data_of e = Some hello /\
    example_store = example_store.
Proof.
  split; [|split; [|split]].
  - apply (proj1 (proj2 (found_unless_none byte_digest example_store 100
                           user_123))
             (str "user_123") [(str "user_123", new_entry 0 hello)]
             (new_entry 0 hello) (PNum 0) 100 hello); reflexivity.
  - apply (proj1 (found_unless_none byte_digest default_pmll 100 user_123)
             (str "user_123") []); reflexivity.
  - apply (proj1 (proj2 (proj2 (found_unless_none byte_digest example_store
                                  700 user_123)))
             (str "user_123") [(str "user_123", new_entry 0 hello)]
             (new_entry 0 hello) (PNum 0) hello); try reflexivity.
    now exists 700.
  - apply (proj2 (proj2 (proj2 (found_unless_none byte_digest example_store
                                  100 user_123)))
             hello example_store); [reflexivity | discriminate].
Defined.


(** Capacity 2 and the puts [a], [b], [c] at times 1, 2, 3: at time 4
    [a] is not found, [b] and [c] are. *)
Lemma eviction_oldest_first_witness :
  exists self',
    add_all byte_digest no_other_order three_calls (__init__ 300 2)
    = (Return tt, self') /\
    get_from_memory byte_digest 4 (PStr (str "a")) self'
    = (Return PNone, self') /\
    get_from_memory byte_digest 4 (PStr (str "b")) self'
    = (Return (PNum 20), self') /\
    get_from_memory byte_digest 4 (PStr (str "c")) self'
    = (Return (PNum 30), self').
Proof.
  apply (proj2 (eviction_oldest_first byte_digest no_other_order)
           300 (PStr (str "a")) (PStr (str "b")) (PStr (str "c"))
           (PNum 10) (PNum 20) (PNum 30)
           (str "a") (str "b") (str "c") 1 2 3 4 4 4);
    try reflexivity; try (vm_compute; discriminate).
Defined.


Lemma load_malformed_witness :
  load_memory default_filename garbage_files example_store
  = (Raise JSONDecodeError, example_store).
Proof.
  apply (load_malformed example_store default_filename garbage_files).
  reflexivity.
Defined.

(** Loading where no file is empties the example store; loading a
    file that may not be read raises and leaves it alone. *)
Lemma load_missing_witness :
  (exists self',
      load_memory default_filename no_files example_store
      = (Return tt, self') /\
      memory self' = PDict [] /\
      entries self' = 0 /\
      same_config example_store self') /\
  load_memory default_filename (fun _ => Denied) example_store
  = (Raise PermissionError, example_store).
Proof.
  split.
  - apply (proj1 (load_missing example_store default_filename no_files)).
    reflexivity.
  - apply (proj2 (load_missing example_store default_filename
                    (fun _ => Denied)) PermissionError).
    + reflexivity.
    + discriminate.
Defined.

(** A document whose entry for ["user_123"] is an empty object is
    loaded as it is, and the get for that key raises. *)
Lemma load_unvalidated_witness :
  load_memory default_filename bare_files example_store
  = (Return tt, with_memory bare_document example_store) /\
  raises (fst (get_from_memory byte_digest 0 user_123
                 (with_memory bare_document example_store))).
Proof.
  destruct (load_unvalidated byte_digest example_store default_filename
              bare_files bare_document eq_refl) as [Hload Hget].
  split; [exact Hload|].
  apply (Hget 0 user_123 (str "user_123") [(str "user_123", PDict [])]
           (PDict [])); reflexivity.
Defined.

(** An [int] key raises in both methods; an object whose [encode]
    returns a [bytes] is hashed; the key of the example is hashed,
    and both methods return for it on the example store. *)
Lemma keys_must_be_str_witness :
  (_hash_key byte_digest (PInt 123) = Raise AttributeError /\
   add_to_memory byte_digest no_other_order 0 (PInt 123) hello example_store
   = (Raise AttributeError, example_store) /\
   get_from_memory byte_digest 0 (PInt 123) example_store
   = (Raise AttributeError, example_store)) /\
  _hash_key byte_digest (PObject (Some (Return (PBytes [x61]))))
  = Return (byte_digest [x61]) /\
  returns (_hash_key byte_digest user_123) /\
  returns (fst (add_to_memory byte_digest no_other_order 0 user_123 hello
                  example_store)) /\
  returns (fst (get_from_memory byte_digest 0 user_123 example_store)).
Proof.
  split; [|split].
  - apply (proj1 (keys_must_be_str byte_digest no_other_order example_store
                    0 (PInt 123) hello)).
    reflexivity.
  - apply (proj1 (proj2 (keys_must_be_str byte_digest no_other_order
                           example_store 0
                           (PObject (Some (Return (PBytes [x61])))) hello))
             [x61]).
    reflexivity.
  - assert (Henc : encodable (str "user_123")) by repeat constructor.
    assert (Hok : store_ok example_store).
    { apply (store_ok_intro _ [(str "user_123", new_entry 0 hello)]).
      - reflexivity.
      - unfold dict_ok. simpl. constructor; [intros []|constructor].
      - repeat constructor; [exists 0|exists hello]; reflexivity. }
    assert (Hsub : forall d, memory example_store = PDict d ->
                             subtractable d).
    { intros d [= <-]. constructor; [|constructor].
      cbn [snd]. intros t [= <-]. now exists 0. }
    destruct (proj2 (proj2 (keys_must_be_str byte_digest no_other_order
                              example_store 0 user_123 hello))
                (str "user_123") eq_refl Henc) as [Hhash Hrun].
    destruct (Hrun Hok) as [Hadd Hget].
    split; [exact Hhash|]. split; [|exact (Hget Hsub)].
    apply Hadd. vm_compute. discriminate.
Defined.

(* ================================================================== *)
(** ** The further properties on the examples *)

(** The get at 601 on the example store deletes its one entry. *)
Lemma get_from_memory_frame_witness :
  same_config example_store (with_memory (PDict []) example_store) /\
  entries example_store - 1
  <= entries (with_memory (PDict []) example_store)
  <= entries example_store /\
  (forall h,
      _hash_key byte_digest user_123 <> Return h ->
      lookup h (with_memory (PDict []) example_store)
      = lookup h example_store) /\
  (Return PNone <> Return PNone ->
   with_memory (PDict []) example_store = example_store).
Proof.
  apply (get_from_memory_frame byte_digest 601 user_123 example_store
           (with_memory (PDict []) example_store) (Return PNone)).
  reflexivity.
Defined.

Lemma get_from_memory_twice_witness :
  get_from_memory byte_digest 601 user_123
    (with_memory (PDict []) example_store)
  = (Return PNone, with_memory (PDict []) example_store).
Proof.
  apply (get_from_memory_twice byte_digest 601 user_123 example_store).
  - intros d [= <-]. unfold dict_ok. simpl.
    constructor; [intros []|constructor].
  - reflexivity.
Defined.

(** A second put for the key of the example store, at time 5. *)
Lemma add_to_memory_overwrites_witness :
  exists self' d',
    add_to_memory byte_digest no_other_order 5 user_123 PNone example_store
    = (Return tt, self') /\
    memory self' = PDict d' /\
    same_config example_store self' /\
    List.map fst d' = List.map fst [(str "user_123", new_entry 0 hello)] /\
    dict_get (str "user_123") d' = Some (new_entry 5 PNone) /\
    lookup (str "user_123") self' = Some (new_entry 5 PNone) /\
    entries self' = entries example_store /\
    forall h', h' <> str "user_123" ->
               dict_get h' d'
               = dict_get h' [(str "user_123", new_entry 0 hello)].
Proof.
  apply (add_to_memory_overwrites byte_digest no_other_order 5 user_123
           PNone example_store (str "user_123")
           [(str "user_123", new_entry 0 hello)]).
  - reflexivity.
  - reflexivity.
  - reflexivity.
  - vm_compute. discriminate.
Defined.

(** A put for ["b"] does not change what the get for ["user_123"]
    gives on the example store. *)
Lemma add_to_memory_keeps_reads_witness :
  exists self',
    add_to_memory byte_digest no_other_order 5 (PStr (str "b")) PNone
                  example_store = (Return tt, self') /\
    fst (get_from_memory byte_digest 7 user_123 self')
    = fst (get_from_memory byte_digest 7 user_123 example_store).
Proof.
  apply (add_to_memory_keeps_reads byte_digest no_other_order 5 7
           (PStr (str "b")) user_123 PNone example_store
           (str "b") (str "user_123")
           [(str "user_123", new_entry 0 hello)]).
  - reflexivity.
  - reflexivity.
  - vm_compute. discriminate.
  - reflexivity.
  - vm_compute. discriminate.
Defined.


(** The entry the put into the full store deletes is older than the
    one it keeps. *)
Lemma eviction_takes_expired_first_witness :
  let d1 := dict_set (str "user_123") (new_entry 10 hello)
                     [(str "old", new_entry 5 PNone)] in
  let gone := evicted (max_memory_size full_store) d1 in
  let kept := delete_all gone d1 in
  add_to_memory byte_digest no_other_order 10 user_123 hello full_store
  = (Return tt, with_memory (PDict kept) full_store) /\
  forall x y,
    In x gone -> In y kept ->
    400 - stamp x <= memory_timeout full_store ->
    400 - stamp y <= memory_timeout full_store.
Proof.
  apply (eviction_takes_expired_first byte_digest no_other_order 10 400
           user_123 hello full_store (str "user_123")
           [(str "old", new_entry 5 PNone)]).
  - reflexivity.
  - reflexivity.
  - unfold dict_ok. simpl. constructor; [intros []|constructor].
  - constructor; [exists 5; reflexivity|constructor].
  - vm_compute. discriminate.
Defined.

(** A put at time 10 for the first key of the crowded store, whose
    two entries are stamped 10 as well: the entry just written is
    the first of the two for [sorted]. *)
Lemma ties_keep_insertion_order_witness :
  exists sorted_memory self' d',
    sorted_by_timestamp no_other_order
      (dict_set (str "user_123") (new_entry 10 hello)
                [(str "user_123", new_entry 10 PNone);
                 (str "old", new_entry 10 PNone)])
    = Return sorted_memory /\
    before (str "user_123", new_entry 10 hello)
           (str "old", new_entry 10 PNone) sorted_memory /\
    add_to_memory byte_digest no_other_order 10 user_123 hello crowded_store
    = (Return tt, self') /\
    memory self' = PDict d' /\
    (lookup (str "old") self' = None ->
     lookup (str "user_123") self' = None).
Proof.
  apply (ties_keep_insertion_order byte_digest no_other_order 10 user_123
           hello crowded_store (str "user_123")
           [(str "user_123", new_entry 10 PNone);
            (str "old", new_entry 10 PNone)]
           (str "user_123", new_entry 10 hello)
           (str "old", new_entry 10 PNone)).
  - reflexivity.
  - reflexivity.
  - unfold dict_ok. simpl.
    constructor; [intros [H|[]]; discriminate|].
    constructor; [intros []|constructor].
  - constructor; [exists 10; reflexivity|].
    constructor; [exists 10; reflexivity|constructor].
  - vm_compute. discriminate.
  - exists [], [], []. reflexivity.
  - reflexivity.
Defined.

(** A put for ["b"] into the store whose entry has no fields. *)
Lemma add_to_memory_fails_after_write_witness :
  exists x self',
    add_to_memory byte_digest no_other_order 10 (PStr (str "b")) hello
                  bare_store
    = (Raise x, self') /\
    (x = KeyError \/ x = TypeError) /\
    memory self'
    = PDict [(str "user_123", PDict []); (str "b", new_entry 10 hello)] /\
    same_config bare_store self' /\
    lookup (str "b") self' = Some (new_entry 10 hello) /\
    entries self' > max_memory_size self'.
Proof.
  apply (add_to_memory_fails_after_write byte_digest no_other_order 10
           (PStr (str "b")) hello bare_store (str "b") (str "user_123")
           [(str "user_123", PDict [])] (PDict [])).
  - reflexivity.
  - reflexivity.
  - left. reflexivity.
  - vm_compute. discriminate.
  - reflexivity.
  - vm_compute. reflexivity.
Defined.

(** The example run on a fresh store of capacity 2. *)
Lemma run_from_init_never_raises_witness :
  exists self',
    run byte_digest no_other_order example_run (__init__ 300 2)
    = (Return tt, self') /\
    store_sound (last_time 0 example_run) self' /\
    memory_timeout self' = 300 /\
    max_memory_size self' = 2.
Proof.
  apply (run_from_init_never_raises byte_digest no_other_order 300 2 0
           example_run).
  - vm_compute. discriminate.
  - vm_compute. repeat split; discriminate.
  - repeat constructor; eexists; (split; [reflexivity|repeat constructor]).
Defined.

Lemma read_your_writes_witness :
  exists mid self',
    run byte_digest no_other_order example_run (__init__ 300 2)
    = (Return tt, mid) /\
    add_to_memory byte_digest no_other_order 400 user_123 hello mid
    = (Return tt, self') /\
    get_from_memory byte_digest 700 user_123 self' = (Return hello, self').
Proof.
  apply (read_your_writes byte_digest no_other_order 300 2 0 400 700
           example_run (str "user_123") hello).
  - vm_compute. discriminate.
  - vm_compute. repeat split; discriminate.
  - repeat constructor; eexists; (split; [reflexivity|repeat constructor]).
  - vm_compute. discriminate.
  - repeat constructor.
  - vm_compute. discriminate.
Defined.

(** Loading from a path that names a directory. *)
Lemma load_memory_outcomes_witness :
  same_config example_store example_store /\
  @Raise unit IsADirectoryError <> Raise FileNotFoundError /\
  (example_store = example_store /\
   (open_for_reading (directories default_filename)
    = Raise IsADirectoryError \/
    (open_for_reading (directories default_filename) = Return Garbage /\
     IsADirectoryError = JSONDecodeError))).
Proof.
  apply (load_memory_outcomes default_filename directories
           example_store example_store (Raise IsADirectoryError)).
  reflexivity.
Defined.



(** Loading two entries into a store of capacity 1, then a put. *)
Lemma load_leaves_excess_to_next_add_witness :
  exists loaded self',
    load_memory default_filename crowded_files full_store
    = (Return tt, loaded) /\
    entries loaded
    = dict_len [(str "user_123", new_entry 10 PNone);
                (str "old", new_entry 10 PNone)] /\
    add_to_memory byte_digest no_other_order 20 (PStr (str "b")) hello loaded
    = (Return tt, self') /\
    entries self' <= max_memory_size full_store /\
    (max_memory_size full_store
     <= dict_len [(str "user_123", new_entry 10 PNone);
                  (str "old", new_entry 10 PNone)] ->
     entries self' = max_memory_size full_store).
Proof.
  apply (load_leaves_excess_to_next_add byte_digest no_other_order
           default_filename crowded_files full_store
           [(str "user_123", new_entry 10 PNone);
            (str "old", new_entry 10 PNone)]
           20 (str "b") hello).
  - reflexivity.
  - constructor; [exists 10; reflexivity|].
    constructor; [exists 10; reflexivity|constructor].
  - vm_compute. discriminate.
  - repeat constructor.
Defined.

Lemma add_to_memory_after_non_mapping_witness :
  load_memory default_filename array_files example_store
  = (Return tt, with_memory (PList []) example_store) /\
  add_to_memory byte_digest no_other_order 0 user_123 hello
                (with_memory (PList []) example_store)
  = (Raise TypeError, with_memory (PList []) example_store).
Proof.
  apply (add_to_memory_after_non_mapping byte_digest no_other_order
           default_filename array_files example_store (PList [])
           0 user_123 hello (str "user_123")).
  - reflexivity.
  - intros d. discriminate.
  - reflexivity.
Defined.

Lemma capacity_zero_keeps_nothing_witness :
  add_to_memory byte_digest no_other_order 0 user_123 hello
                (with_memory (memory example_store) (__init__ 300 0))
  = (Return tt,
     with_memory (PDict [])
                 (with_memory (memory example_store) (__init__ 300 0))) /\
  get_from_memory byte_digest 0 user_123
    (with_memory (PDict [])
                 (with_memory (memory example_store) (__init__ 300 0)))
  = (Return PNone,
     with_memory (PDict [])
                 (with_memory (memory example_store) (__init__ 300 0))).
Proof.
  apply (capacity_zero_keeps_nothing byte_digest no_other_order 0 0
           user_123 user_123 hello
           (with_memory (memory example_store) (__init__ 300 0))
           (str "user_123") (str "user_123")
           [(str "user_123", new_entry 0 hello)]).
  - reflexivity.
  - reflexivity.
  - reflexivity.
  - constructor; [exists 0; reflexivity|constructor].
  - reflexivity.
Defined.

